(** * trading_bot: validation, request signing and order submission

    A shallow embedding of the Python package [bot] (validators.py,
    client.py, orders.py and the validation block of cli.py) together
    with the properties its specification states about it.

    Modelling conventions
    - a Python [str] is a Rocq [string], one [ascii] per character
      (code points up to U+00FF); the few literals of the program with
      characters beyond that range appear as their UTF-8 bytes;
    - a Python [float] is an IEEE 754 binary64 number, represented by
      [spec_float] with [prec = 53] and [emax = 1024];
    - a Python [dict] is an insertion-ordered association list with unique
      keys; dictionaries that the program mutates live in a heap and are
      passed around by location;
    - an exception is the [Raise] branch of a result, threaded through a
      state monad whose state holds the heap and the trace of observable
      events (log records, console output, HTTP calls). *)

From Stdlib Require Import ZArith List String Ascii Bool Lia.
From Stdlib Require Import SpecFloat DecimalString QArith Qabs.
From stdpp Require Import base option gmap.
Import ListNotations.

Local Open Scope string_scope.
Local Open Scope list_scope.
Local Open Scope Z_scope.

(* ===================================================================== *)
(** * Python floats                                                       *)
(* ===================================================================== *)

Module PyFloat.

Definition prec : Z := 53.
Definition emax : Z := 1024.

Definition float : Type := spec_float.

(** [x <= y] and [x < y] on floats; both are false when a NaN is involved. *)
Definition leb (x y : float) : bool := SFleb x y.
Definition ltb (x y : float) : bool := SFltb x y.
Definition eqb (x y : float) : bool := SFeqb x y.

Definition is_finite (x : float) : bool :=
  match x with
  | S754_zero _ | S754_finite _ _ _ => true
  | S754_infinity _ | S754_nan => false
  end.

(** The float nearest to the integer [z] (ties to even): the conversion
    Python applies to an [int] operand of a mixed comparison. *)
Definition of_Z (z : Z) : float := binary_normalize prec emax z 0 false.

(** The float nearest to [(-1)^s * m * 10^e] (ties to even), infinite on
    overflow: what a correctly rounded decimal-to-binary conversion
    returns. *)
Definition of_decimal (s : bool) (m : Z) (e : Z) : float :=
  match m with
  | Zpos p =>
      match e with
      | Zneg k =>
          SFdiv prec emax (S754_finite s p 0)
                (S754_finite false (Pos.pow 10 k) 0)
      | _ => binary_normalize prec emax (if s then - (m * 10 ^ e) else m * 10 ^ e) 0 s
      end
  | _ => S754_zero s
  end.

(** The rational value of a finite float. *)
Definition value (x : float) : option Q :=
  match x with
  | S754_zero _ => Some (0 # 1)%Q
  | S754_finite s m e =>
      let v := (inject_Z (Zpos m) * Qpower (2 # 1) e)%Q in
      Some (if s then Qopp v else v)
  | S754_infinity _ | S754_nan => None
  end.

(** The float written [0.001]. *)
Definition milli : float := S754_finite false 4611686018427388 (-62).

(** ** [float(str)]

    The grammar of CPython's [float] constructor on a string: blanks are
    stripped at both ends, single underscores may separate digits, and
    what remains is a signed [inf], [infinity], [nan] (in any case) or a
    decimal literal with an optional exponent. *)

Definition code (c : ascii) : nat := nat_of_ascii c.

Definition is_digit (c : ascii) : bool :=
  (48 <=? code c)%nat && (code c <=? 57)%nat.

Definition digit_val (c : ascii) : Z := Z.of_nat (code c) - 48.

(** Characters above U+007F: the two Latin-1 blanks become a space, every
    other one becomes a character no number contains. *)
Definition to_ascii_space (c : ascii) : ascii :=
  if (code c <=? 127)%nat then c
  else if (code c =? 133)%nat || (code c =? 160)%nat then " "%char
  else "?"%char.

Definition is_c_space (c : ascii) : bool :=
  ((9 <=? code c)%nat && (code c <=? 13)%nat) || (code c =? 32)%nat.

Fixpoint lstrip (l : list ascii) : list ascii :=
  match l with
  | c :: l' => if is_c_space c then lstrip l' else l
  | [] => []
  end.

Definition strip (l : list ascii) : list ascii :=
  rev (lstrip (rev (lstrip l))).

(** Underscores are allowed only between two digits; [prev] is the
    character just read.  Returns the text without its underscores. *)
Fixpoint drop_underscores (prev : ascii) (l : list ascii) : option (list ascii) :=
  match l with
  | [] => if Ascii.eqb prev "_" then None else Some []
  | c :: l' =>
      if Ascii.eqb c "_" then
        if is_digit prev then drop_underscores c l' else None
      else if Ascii.eqb prev "_" && negb (is_digit c) then None
      else option_map (cons c) (drop_underscores c l')
  end.

Definition lower (c : ascii) : ascii :=
  if (65 <=? code c)%nat && (code c <=? 90)%nat
  then ascii_of_nat (code c + 32) else c.

Definition list_ascii_eqb (a b : list ascii) : bool :=
  String.eqb (string_of_list_ascii a) (string_of_list_ascii b).

Definition matches_word (w : string) (l : list ascii) : bool :=
  list_ascii_eqb (map lower l) (list_ascii_of_string w).

(** Splits off the longest prefix of digits. *)
Fixpoint span_digits (l : list ascii) : list ascii * list ascii :=
  match l with
  | c :: l' =>
      if is_digit c then let '(d, r) := span_digits l' in (c :: d, r)
      else ([], l)
  | [] => ([], [])
  end.

Definition digits_value (d : list ascii) : Z :=
  fold_left (fun acc c => 10 * acc + digit_val c) d 0.

Definition split_sign (l : list ascii) : bool * list ascii :=
  match l with
  | c :: l' =>
      if Ascii.eqb c "-" then (true, l')
      else if Ascii.eqb c "+" then (false, l')
      else (false, l)
  | [] => (false, [])
  end.

(** The exponent part: empty, or [e]/[E], an optional sign and at least
    one digit, up to the end of the text. *)
Definition parse_exponent (l : list ascii) : option Z :=
  match l with
  | [] => Some 0
  | c :: l' =>
      if Ascii.eqb (lower c) "e" then
        let '(neg, l'') := split_sign l' in
        match span_digits l'' with
        | ((_ :: _) as d, []) =>
            Some (if neg then - digits_value d else digits_value d)
        | _ => None
        end
      else None
  end.

(** An unsigned decimal literal: digits, an optional point and more
    digits (at least one digit in all), an optional exponent. *)
Definition parse_decimal (neg : bool) (l : list ascii) : option float :=
  let '(ip, r) := span_digits l in
  let '(fp, r') :=
    match r with
    | c :: r1 => if Ascii.eqb c "." then span_digits r1 else ([], r)
    | [] => ([], [])
    end in
  match ip ++ fp with
  | [] => None
  | ds =>
      match parse_exponent r' with
      | Some ex =>
          Some (of_decimal neg (digits_value ds) (ex - Z.of_nat (length fp)))
      | None => None
      end
  end.

Definition parse_number (l : list ascii) : option float :=
  let '(neg, body) := split_sign l in
  if matches_word "inf" body || matches_word "infinity" body
  then Some (S754_infinity neg)
  else if matches_word "nan" body then Some S754_nan
  else parse_decimal neg body.

(** [float(s)] for a string [s]; [None] stands for [ValueError]. *)
Definition of_string (s : string) : option float :=
  let l := strip (map to_ascii_space (list_ascii_of_string s)) in
  match drop_underscores "000"%char l with
  | Some l' => parse_number l'
  | None => None
  end.

(** ** [repr(float)]

    The shortest decimal text that reads back as the same float, in the
    layout of [repr]: plain notation for decimal exponents from -4 to 15,
    scientific notation otherwise. *)

Definition same (x y : float) : bool :=
  match x, y with
  | S754_zero a, S754_zero b => Bool.eqb a b
  | S754_infinity a, S754_infinity b => Bool.eqb a b
  | S754_nan, S754_nan => true
  | S754_finite a m e, S754_finite b n f =>
      Bool.eqb a b && Pos.eqb m n && (e =? f)
  | _, _ => false
  end.

(** [x = num / den] for the positive finite float [m * 2^e]. *)
Definition ratio (m : positive) (e : Z) : Z * Z :=
  match e with
  | Zneg k => (Zpos m, 2 ^ Zpos k)
  | _ => (Zpos m * 2 ^ e, 1)
  end.

(** [num / den] scaled by [10^(-q)], as a fraction. *)
Definition scaled (nd : Z * Z) (q : Z) : Z * Z :=
  let '(n, d) := nd in
  match q with
  | Zneg k => (n * 10 ^ Zpos k, d)
  | _ => (n, d * 10 ^ q)
  end.

(** [10^p <= num / den] *)
Definition ge_pow10 (nd : Z * Z) (p : Z) : bool :=
  let '(n, d) := scaled nd p in d <=? n.

(** The decimal exponent of [x]: [10^p <= x < 10^(p+1)]. *)
Definition exponent10 (m : positive) (e : Z) : Z :=
  let nd := ratio m e in
  let p0 := (Zpos (digits2_pos m) + e - 1) * 30103 / 100000 in
  if ge_pow10 nd (p0 + 1) then p0 + 1
  else if ge_pow10 nd p0 then p0 else p0 - 1.

(** With [k] significant digits: the neighbour of [x] that reads back as
    [x], the nearer one when both do. *)
Definition candidate (m : positive) (e : Z) (p : Z) (k : Z) : option (Z * Z) :=
  let q := p - k + 1 in
  let '(n, d) := scaled (ratio m e) q in
  let lo := n / d in
  let r := n mod d in
  let x := S754_finite false m e in
  let ok_lo := same (of_decimal false lo q) x in
  let ok_hi := same (of_decimal false (lo + 1) q) x in
  let prefer_hi := (d <? 2 * r) || ((d =? 2 * r) && Z.odd lo) in
  if ok_lo && ok_hi then Some (if prefer_hi then lo + 1 else lo, q)
  else if ok_lo then Some (lo, q)
  else if ok_hi then Some (lo + 1, q)
  else None.

Fixpoint shortest (fuel : nat) (m : positive) (e : Z) (p : Z) (k : Z) : Z * Z :=
  match fuel with
  | O => (let '(n, d) := scaled (ratio m e) (p - k + 1) in n / d, p - k + 1)
  | S fuel' =>
      match candidate m e p k with
      | Some c => c
      | None => shortest fuel' m e p (k + 1)
      end
  end.

Fixpoint strip_zeros (fuel : nat) (c q : Z) : Z * Z :=
  match fuel with
  | O => (c, q)
  | S fuel' =>
      if (c mod 10 =? 0) && negb (c =? 0) then strip_zeros fuel' (c / 10) (q + 1)
      else (c, q)
  end.

Definition dec (z : Z) : string := NilZero.string_of_int (Z.to_int z).

Definition zeros (n : Z) : string :=
  string_of_list_ascii (repeat "0"%char (Z.to_nat n)).

Definition layout (c q : Z) : string :=
  let ds := dec c in
  let n := Z.of_nat (String.length ds) in
  let decpt := n + q in
  if (decpt <=? -4) || (16 <? decpt) then
    let ex := decpt - 1 in
    let mant :=
      match ds with
      | String d1 EmptyString => ds
      | String d1 rest => String d1 (String "." rest)
      | EmptyString => ds
      end in
    let sign := if ex <? 0 then "-" else "+" in
    let pad := if Z.abs ex <? 10 then "0" else "" in
    (mant ++ "e" ++ sign ++ pad ++ dec (Z.abs ex))%string
  else if decpt <=? 0 then ("0." ++ zeros (- decpt) ++ ds)%string
  else if n <=? decpt then (ds ++ zeros (decpt - n) ++ ".0")%string
  else (substring 0 (Z.to_nat decpt) ds ++ "."
          ++ substring (Z.to_nat decpt) (Z.to_nat (n - decpt)) ds)%string.

Definition repr (x : float) : string :=
  match x with
  | S754_nan => "nan"
  | S754_infinity s => if s then "-inf" else "inf"
  | S754_zero s => if s then "-0.0" else "0.0"
  | S754_finite s m e =>
      let '(c, q) := shortest 17 m e (exponent10 m e) 1 in
      let '(c, q) := strip_zeros 17 c q in
      let sign := if s then "-" else "" in
      (sign ++ layout c q)%string
  end.

End PyFloat.

(* ===================================================================== *)
(** * Built-in functions the program relies on                            *)
(* ===================================================================== *)

(** Methods of [str] and the conversion [str(float)], whose definitions
    belong to the Python runtime; the program is modelled for any
    implementation of them. *)
Class Builtins : Type := {
  str_strip : string -> string;
  str_upper : string -> string;
  str_isalnum : string -> bool;
  float_repr : PyFloat.float -> string
}.

(** A runtime for running the model on examples.  It agrees with Python on
    ASCII text: blanks are the ASCII blanks, letters the 52 ASCII letters. *)
Module AsciiRuntime.

Definition code (c : ascii) : nat := nat_of_ascii c.

Definition is_blank (c : ascii) : bool :=
  ((9 <=? code c)%nat && (code c <=? 13)%nat)
  || ((28 <=? code c)%nat && (code c <=? 32)%nat).

Fixpoint lstrip (l : list ascii) : list ascii :=
  match l with
  | c :: l' => if is_blank c then lstrip l' else l
  | [] => []
  end.

Definition strip (s : string) : string :=
  string_of_list_ascii (rev (lstrip (rev (lstrip (list_ascii_of_string s))))).

Definition upper_char (c : ascii) : ascii :=
  if (97 <=? code c)%nat && (code c <=? 122)%nat
  then ascii_of_nat (code c - 32) else c.

Definition upper (s : string) : string :=
  string_of_list_ascii (map upper_char (list_ascii_of_string s)).

Definition is_alnum_char (c : ascii) : bool :=
  ((48 <=? code c)%nat && (code c <=? 57)%nat)
  || ((65 <=? code c)%nat && (code c <=? 90)%nat)
  || ((97 <=? code c)%nat && (code c <=? 122)%nat).

Definition isalnum (s : string) : bool :=
  match s with
  | EmptyString => false
  | _ => forallb is_alnum_char (list_ascii_of_string s)
  end.

Definition builtins : Builtins :=
  {| str_strip := strip; str_upper := upper; str_isalnum := isalnum;
     float_repr := PyFloat.repr |}.

End AsciiRuntime.

(* ===================================================================== *)
(** * Results and exceptions                                              *)
(* ===================================================================== *)

(** The outcome of a call that may raise: a value, or the exception. *)
Inductive result (E A : Type) : Type :=
| Ok (a : A)
| Raise (e : E).
Arguments Ok {E A} a.
Arguments Raise {E A} e.

Definition is_ok {E A} (r : result E A) : bool :=
  match r with Ok _ => true | Raise _ => false end.

(* ===================================================================== *)
(** * validators.py                                                       *)
(* ===================================================================== *)

Module Validators.

Import PyFloat.

Definition VALID_SIDES : list string := ["BUY"; "SELL"].
Definition VALID_ORDER_TYPES : list string := ["MARKET"; "LIMIT"; "STOP_MARKET"].

(** [x in xs] for strings. *)
Definition str_in (x : string) (xs : list string) : bool :=
  existsb (String.eqb x) xs.

(** A raw command-line value: [str | float | None]. *)
Inductive raw : Type :=
| RNone
| RStr (s : string)
| RFloat (f : float).

(** [float(x)]; [None] stands for the [TypeError] or [ValueError] that
    the validators catch. *)
Definition py_float (x : raw) : option float :=
  match x with
  | RNone => None
  | RStr s => of_string s
  | RFloat f => Some f
  end.

(** [ValidationError], one constructor per [raise] site, carrying the
    values interpolated into its message. *)
Inductive ValidationError : Type :=
| InvalidSymbol (symbol : string)
| InvalidSide (side : string)
| InvalidOrderType (order_type : string)
| InvalidQuantity (quantity : raw)
| QuantityNotPositive (qty : float)
| PriceRequired (order_type : string)
| InvalidPrice (price : raw)
| PriceNotPositive (p : float)
| StopPriceRequired
| InvalidStopPrice (stop_price : raw)
| StopPriceNotPositive (sp : float).

Definition vresult := result ValidationError.

Section StrMethods.

Context `{Builtins}.

Definition validate_symbol (symbol : string) : vresult string :=
  let symbol := str_upper (str_strip symbol) in
  if negb (str_isalnum symbol) then Raise (InvalidSymbol symbol)
  else Ok symbol.

Definition validate_side (side : string) : vresult string :=
  let side := str_upper (str_strip side) in
  if negb (str_in side VALID_SIDES) then Raise (InvalidSide side)
  else Ok side.

Definition validate_order_type (order_type : string) : vresult string :=
  let order_type := str_upper (str_strip order_type) in
  if negb (str_in order_type VALID_ORDER_TYPES)
  then Raise (InvalidOrderType order_type)
  else Ok order_type.

End StrMethods.

Definition validate_quantity (quantity : raw) : vresult float :=
  match py_float quantity with
  | None => Raise (InvalidQuantity quantity)
  | Some qty =>
      if leb qty (of_Z 0) then Raise (QuantityNotPositive qty)
      else Ok qty
  end.

Definition validate_price (price : raw) (order_type : string)
  : vresult (option float) :=
  if str_in order_type ["LIMIT"; "STOP_MARKET"] then
    match price with
    | RNone => Raise (PriceRequired order_type)
    | _ =>
        match py_float price with
        | None => Raise (InvalidPrice price)
        | Some p =>
            if leb p (of_Z 0) then Raise (PriceNotPositive p)
            else Ok (Some p)
        end
    end
  else Ok None.

Definition validate_stop_price (stop_price : raw) (order_type : string)
  : vresult (option float) :=
  if String.eqb order_type "STOP_MARKET" then
    match stop_price with
    | RNone => Raise StopPriceRequired
    | _ =>
        match py_float stop_price with
        | None => Raise (InvalidStopPrice stop_price)
        | Some sp =>
            if leb sp (of_Z 0) then Raise (StopPriceNotPositive sp)
            else Ok (Some sp)
        end
    end
  else Ok None.

End Validators.

(* ===================================================================== *)
(** * cli.py: the validation block of [main]                              *)
(* ===================================================================== *)

Module Cli.

Import Validators.

(** The parsed command line: four required strings, two optional ones. *)
Record args : Type := {
  arg_symbol : string;
  arg_side : string;
  arg_order_type : string;
  arg_quantity : string;
  arg_price : option string;
  arg_stop_price : option string
}.

(** The six validated values [main] hands to [place_order]. *)
Record order_request : Type := {
  symbol : string;
  side : string;
  order_type : string;
  quantity : PyFloat.float;
  price : option PyFloat.float;
  stop_price : option PyFloat.float
}.

Definition raw_of (a : option string) : raw :=
  match a with Some s => RStr s | None => RNone end.

Definition bind {A B} (r : vresult A) (k : A -> vresult B) : vresult B :=
  match r with Ok a => k a | Raise e => Raise e end.

Section StrMethods.

Context `{Builtins}.

(** The [try] block of [main]: the validators run in this order and the
    first failure aborts. *)
Definition validate_args (a : args) : vresult order_request :=
  bind (validate_symbol (arg_symbol a)) (fun symbol =>
  bind (validate_side (arg_side a)) (fun side =>
  bind (validate_order_type (arg_order_type a)) (fun order_type =>
  bind (validate_quantity (RStr (arg_quantity a))) (fun quantity =>
  bind (validate_price (raw_of (arg_price a)) order_type) (fun price =>
  bind (validate_stop_price (raw_of (arg_stop_price a)) order_type) (fun stop_price =>
  Ok {| symbol := symbol; side := side; order_type := order_type;
        quantity := quantity; price := price; stop_price := stop_price |})))))).

End StrMethods.

End Cli.

(* ===================================================================== *)
(** * Insertion-ordered dictionaries                                      *)
(* ===================================================================== *)

Module Dict.

Section Ops.
Context {V : Type}.

(** Entries in insertion order. *)
Definition t : Type := list (string * V).

Fixpoint get (k : string) (d : t) : option V :=
  match d with
  | [] => None
  | (k', v) :: d' => if String.eqb k k' then Some v else get k d'
  end.

(** [d[k] = v]: an existing key keeps its position and takes the new
    value, a new key goes to the end. *)
Fixpoint set (k : string) (v : V) (d : t) : t :=
  match d with
  | [] => [(k, v)]
  | (k', v') :: d' =>
      if String.eqb k k' then (k', v) :: d' else (k', v') :: set k v d'
  end.

Definition keys (d : t) : list string := map fst d.

Definition mem (k : string) (d : t) : bool :=
  match get k d with Some _ => true | None => false end.

(** [d.get(k, default)] *)
Definition get_default (k : string) (default : V) (d : t) : V :=
  match get k d with Some v => v | None => default end.

(** The dictionary display [{k1: v1, ..., kn: vn}], built entry by
    entry. *)
Definition of_list (l : list (string * V)) : t :=
  fold_left (fun d kv => set (fst kv) (snd kv) d) l [].

End Ops.
Arguments t V : clear implicits.

End Dict.

(* ===================================================================== *)
(** * hashlib.sha256 and hmac                                             *)
(* ===================================================================== *)

Module Sha256.

Definition bytes : Type := list Byte.byte.

Definition Z_of_byte (b : Byte.byte) : Z := Z.of_N (Byte.to_N b).
Definition byte_of_Z (z : Z) : Byte.byte :=
  match Byte.of_N (Z.to_N (z mod 256)) with
  | Some b => b
  | None => Byte.x00
  end.

Definition mask32 : Z := 0xFFFFFFFF.
Definition add32 (x y : Z) : Z := Z.land (x + y) mask32.
Definition rotr (n x : Z) : Z :=
  Z.lor (Z.shiftr x n) (Z.land (Z.shiftl x (32 - n)) mask32).
Definition not32 (x : Z) : Z := Z.lxor x mask32.

Definition Ch (x y z : Z) : Z := Z.lxor (Z.land x y) (Z.land (not32 x) z).
Definition Maj (x y z : Z) : Z :=
  Z.lxor (Z.lxor (Z.land x y) (Z.land x z)) (Z.land y z).
Definition Sigma0 (x : Z) : Z := Z.lxor (Z.lxor (rotr 2 x) (rotr 13 x)) (rotr 22 x).
Definition Sigma1 (x : Z) : Z := Z.lxor (Z.lxor (rotr 6 x) (rotr 11 x)) (rotr 25 x).
Definition sigma0 (x : Z) : Z := Z.lxor (Z.lxor (rotr 7 x) (rotr 18 x)) (Z.shiftr x 3).
Definition sigma1 (x : Z) : Z := Z.lxor (Z.lxor (rotr 17 x) (rotr 19 x)) (Z.shiftr x 10).

(** The constants of the algorithm are fractional parts of roots of the
    first primes, 32 bits each. *)
Definition is_prime (n : Z) : bool :=
  (1 <? n) && forallb (fun d => negb (n mod d =? 0))
                      (map Z.of_nat (seq 2 (Z.to_nat (Z.sqrt n) - 1))).

Definition primes_below (n : nat) : list Z :=
  List.filter is_prime (map Z.of_nat (seq 0 n)).

(** The largest [r] in [lo, hi) whose cube is at most [n]. *)
Fixpoint cube_root_in (fuel : nat) (lo hi n : Z) : Z :=
  match fuel with
  | O => lo
  | S fuel' =>
      if hi - lo <=? 1 then lo
      else
        let mid := (lo + hi) / 2 in
        if mid * mid * mid <=? n then cube_root_in fuel' mid hi n
        else cube_root_in fuel' lo mid n
  end.

Definition frac_cube_root (p : Z) : Z :=
  cube_root_in 64 0 (2 ^ 40) (p * 2 ^ 96) mod 2 ^ 32.

Definition frac_square_root (p : Z) : Z := Z.sqrt (p * 2 ^ 64) mod 2 ^ 32.

(** Round constants: cube roots of the first 64 primes. *)
Definition K : list Z :=
  Eval vm_compute in map frac_cube_root (primes_below 312).

(** Initial state: square roots of the first 8 primes. *)
Definition H0 : list Z :=
  Eval vm_compute in map frac_square_root (primes_below 20).

(** Big-endian bytes of the [n]-byte integer [x]. *)
Fixpoint be_bytes (n : nat) (x : Z) : list Z :=
  match n with
  | O => []
  | S n' => (Z.shiftr x (8 * Z.of_nat n') mod 256) :: be_bytes n' x
  end.

Fixpoint be_words (l : list Z) : list Z :=
  match l with
  | a :: b :: c :: d :: r =>
      (Z.shiftl a 24 + Z.shiftl b 16 + Z.shiftl c 8 + d) :: be_words r
  | _ => []
  end.

(** The message, a one bit, zeros up to 56 modulo 64, the bit length. *)
Definition pad (msg : list Z) : list Z :=
  let len := Z.of_nat (length msg) in
  msg ++ [0x80] ++ repeat 0 (Z.to_nat ((55 - len) mod 64))
      ++ be_bytes 8 (8 * len).

(** The message schedule, most recent word first. *)
Fixpoint extend (n : nat) (w : list Z) : list Z :=
  match n with
  | O => w
  | S n' =>
      let x := add32 (add32 (sigma1 (nth 1 w 0)) (nth 6 w 0))
                     (add32 (sigma0 (nth 14 w 0)) (nth 15 w 0)) in
      extend n' (x :: w)
  end.

Definition schedule (block : list Z) : list Z :=
  rev (extend 48 (rev (be_words block))).

Definition round (s : list Z) (kw : Z * Z) : list Z :=
  match s with
  | [a; b; c; d; e; f; g; h] =>
      let t1 := add32 (add32 (add32 h (Sigma1 e)) (add32 (Ch e f g) (fst kw))) (snd kw) in
      let t2 := add32 (Sigma0 a) (Maj a b c) in
      [add32 t1 t2; a; b; c; add32 d t1; e; f; g]
  | _ => s
  end.

Fixpoint add_state (s s' : list Z) : list Z :=
  match s, s' with
  | x :: r, y :: r' => add32 x y :: add_state r r'
  | _, _ => []
  end.

Definition compress (s : list Z) (block : list Z) : list Z :=
  add_state s (fold_left round (combine K (schedule block)) s).

Fixpoint blocks (n : nat) (l : list Z) (s : list Z) : list Z :=
  match n with
  | O => s
  | S n' => blocks n' (skipn 64 l) (compress s (firstn 64 l))
  end.

Definition sha256 (msg : bytes) : bytes :=
  let p := pad (map Z_of_byte msg) in
  map byte_of_Z (flat_map (be_bytes 4) (blocks (length p / 64) p H0)).

Definition xor_pad (c : Z) (key : list Z) : list Z :=
  map (Z.lxor c) key.

(** [hmac.new(key, msg, hashlib.sha256).digest()] *)
Definition hmac_sha256 (key msg : bytes) : bytes :=
  let k := if (64 <? length key)%nat then sha256 key else key in
  let k0 := map Z_of_byte k ++ repeat 0 (64 - length k)%nat in
  let inner := sha256 (map byte_of_Z (xor_pad 0x36 k0) ++ msg) in
  sha256 (map byte_of_Z (xor_pad 0x5c k0) ++ inner).

Definition hex_digit (n : Z) : ascii :=
  if n <? 10 then ascii_of_nat (Z.to_nat (48 + n))
  else ascii_of_nat (Z.to_nat (87 + n)).

(** [.hexdigest()]: two lower-case hexadecimal digits per byte. *)
Fixpoint hex (b : bytes) : string :=
  match b with
  | [] => EmptyString
  | x :: r =>
      String (hex_digit (Z_of_byte x / 16))
             (String (hex_digit (Z_of_byte x mod 16)) (hex r))
  end.

End Sha256.

(* ===================================================================== *)
(** * str.encode and urllib.parse.urlencode                               *)
(* ===================================================================== *)

Module Encoding.

Import Sha256.

(** [s.encode("utf-8")] for code points up to U+00FF. *)
Fixpoint utf8 (s : string) : bytes :=
  match s with
  | EmptyString => []
  | String c r =>
      let n := Z.of_nat (nat_of_ascii c) in
      if n <? 128 then byte_of_Z n :: utf8 r
      else byte_of_Z (0xC0 + n / 64) :: byte_of_Z (0x80 + n mod 64) :: utf8 r
  end.

Definition upper_hex_digit (n : Z) : ascii :=
  if n <? 10 then ascii_of_nat (Z.to_nat (48 + n))
  else ascii_of_nat (Z.to_nat (55 + n)).

(** The bytes [quote] never escapes: letters, digits and [_.-~]. *)
Definition always_safe (n : Z) : bool :=
  ((65 <=? n) && (n <=? 90)) || ((97 <=? n) && (n <=? 122))
  || ((48 <=? n) && (n <=? 57))
  || (n =? 95) || (n =? 46) || (n =? 45) || (n =? 126).

Definition quote_byte (b : Byte.byte) : string :=
  let n := Z_of_byte b in
  if always_safe n then String (ascii_of_byte b) EmptyString
  else if n =? 32 then "+"
  else String "%" (String (upper_hex_digit (n / 16))
                     (String (upper_hex_digit (n mod 16)) EmptyString)).

(** [quote_plus(s)] with the default empty [safe]. *)
Definition quote_plus (s : string) : string :=
  String.concat "" (map quote_byte (utf8 s)).

(** [str(n)] for an [int]. *)
Definition str_of_int (z : Z) : string := NilZero.string_of_int (Z.to_int z).

End Encoding.

(* ===================================================================== *)
(** * Values, exceptions and the world                                    *)
(* ===================================================================== *)

Module Py.

Import PyFloat.

(** The values a request parameter takes: [str], [int], [float], [None]. *)
Inductive pval : Type :=
| PStr (s : string)
| PInt (z : Z)
| PFloat (f : float)
| PNone.

(** [Optional[float]] as a parameter value. *)
Definition of_opt_float (o : option float) : pval :=
  match o with Some f => PFloat f | None => PNone end.

Definition params : Type := Dict.t pval.

(** A decoded JSON document. *)
#[local] Set Warnings "-register-all".
Inductive json : Type :=
| JNull
| JBool (b : bool)
| JInt (z : Z)
| JFloat (f : float)
| JStr (s : string)
| JList (l : list json)
| JDict (d : list (string * json)).

(** [v != n] for the small integer constant [n] ([n] is a float exactly):
    numbers compare by value, a boolean counts as 0 or 1, anything else
    differs from every integer. *)
Definition ne_int (v : json) (n : Z) : bool :=
  match v with
  | JInt z => negb (z =? n)
  | JFloat f => negb (PyFloat.eqb f (of_Z n))
  | JBool b => negb ((if b then 1 else 0) =? n)
  | _ => true
  end.

(** [v in names] for a tuple of strings: only a string can be equal to
    one of them. *)
Definition in_strs (v : json) (names : list string) : bool :=
  match v with
  | JStr s => Validators.str_in s names
  | _ => false
  end.

(** The exceptions of the program: its own [BinanceAPIError], the
    built-in [ConnectionError] and [TimeoutError] (an instance of the class
    or of a subclass), and any other [Exception], named by its class. *)
Inductive exn : Type :=
| BinanceAPIError (code : json) (message : json)
| ConnectionError (msg : string)
| TimeoutError (msg : string)
| OtherException (cls : string) (msg : string).

(** [str(v)] for a parameter value. *)
Definition str `{Builtins} (v : pval) : string :=
  match v with
  | PStr s => s
  | PInt z => Encoding.str_of_int z
  | PFloat f => float_repr f
  | PNone => "None"
  end.

(** [urlencode(d)]: [quote_plus(str(k)) = quote_plus(str(v))] for every
    entry in order, joined by [&]. *)
Definition urlencode `{Builtins} (d : params) : string :=
  String.concat "&"
    (map (fun kv => (Encoding.quote_plus (fst kv) ++ "="
                       ++ Encoding.quote_plus (str (snd kv)))%string) d).

(** ** Observable events *)

Inductive level : Type := DEBUG | INFO | WARNING | ERROR.

(** A value handed to a log call or interpolated into printed text. *)
Inductive arg : Type :=
| AVal (v : pval)
| AJson (j : json)
| AParams (d : params)
| AExn (e : exn).

(** A piece of an f-string: literal text or an interpolated value. *)
Inductive piece : Type :=
| Lit (s : string)
| Val (a : arg).

Record http_request : Type := {
  req_method : string;
  req_url : string;
  req_headers : list (string * string);
  req_params : params;
  req_timeout : Z
}.

Record response : Type := {
  status_code : Z;
  text : string;
  (** [response.json()]; [None] when the body is not JSON ([ValueError]) *)
  json_body : option json
}.

(** What [session.request] does with a request. *)
Inductive transport_outcome : Type :=
| Responds (r : response)
| RaisesConnectionError (exc : string)
| RaisesTimeout
| RaisesOther (e : exn).

Inductive event : Type :=
| Log (lvl : level) (template : string) (args : list arg) (exc_info : bool)
| Print (text : list piece)
| HttpSend (req : http_request).

(** ** The world: heap of parameter dictionaries and event trace *)

Definition loc : Type := positive.

Record world : Type := {
  heap : gmap loc params;
  trace : list event
}.

(** What the program reads from outside: the clock, in milliseconds since
    the epoch ([int(time.time() * 1000)]), and the network. *)
Record env : Type := {
  now_ms : Z;
  send : http_request -> transport_outcome
}.

(** ** The monad of the program *)

Definition M (A : Type) : Type := world -> result exn A * world.

Definition ret {A} (a : A) : M A := fun w => (Ok a, w).

Definition bind {A B} (m : M A) (k : A -> M B) : M B :=
  fun w =>
    match m w with
    | (Ok a, w') => k a w'
    | (Raise e, w') => (Raise e, w')
    end.

Definition raise {A} (e : exn) : M A := fun w => (Raise e, w).

(** [try: m  except Exception as exc: handler exc] *)
Definition catch {A} (m : M A) (handler : exn -> M A) : M A :=
  fun w =>
    match m w with
    | (Raise e, w') => handler e w'
    | r => r
    end.

Definition emit (e : event) : M unit :=
  fun w => (Ok tt, {| heap := heap w; trace := trace w ++ [e] |}).

(** A new dictionary object. *)
Definition alloc (d : params) : M loc :=
  fun w =>
    let l := fresh (dom (heap w)) in
    (Ok l, {| heap := <[l := d]> (heap w); trace := trace w |}).

(** The contents of the dictionary at [l]; a dangling location is a
    program the model does not run. *)
Definition read (l : loc) : M params :=
  fun w =>
    match heap w !! l with
    | Some d => (Ok d, w)
    | None => (Raise (OtherException "ReferenceError" ""), w)
    end.

(** [l[k] = v], in place. *)
Definition set_item (l : loc) (k : string) (v : pval) : M unit :=
  fun w =>
    match heap w !! l with
    | Some d =>
        (Ok tt, {| heap := <[l := Dict.set k v d]> (heap w); trace := trace w |})
    | None => (Raise (OtherException "ReferenceError" ""), w)
    end.

Definition log (lvl : level) (template : string) (args : list arg) : M unit :=
  emit (Log lvl template args false).

(** The dictionary passed to a call exists. *)
Definition valid_params (params : option loc) (w : world) : Prop :=
  match params with
  | Some l => is_Some (heap w !! l)
  | None => True
  end.

(** A decoded body that has a [code] entry different from 200. *)
Definition error_body (data : json) : Prop :=
  exists d code,
    data = JDict d /\ Dict.get "code" d = Some code /\ ne_int code 200 = true.

Definition is_send (e : event) : bool :=
  match e with HttpSend _ => true | _ => false end.

(** The number of HTTP calls in a trace. *)
Definition count_sends (t : list event) : nat := length (List.filter is_send t).

Definition is_log_at (lvl : level) (e : event) : bool :=
  match e, lvl with
  | Log DEBUG _ _ _, DEBUG | Log INFO _ _ _, INFO
  | Log WARNING _ _ _, WARNING | Log ERROR _ _ _, ERROR => true
  | _, _ => false
  end.

Definition print (text : list piece) : M unit := emit (Print text).

End Py.

Declare Scope py_scope.
Delimit Scope py_scope with py.
Notation "'let*' x ':=' m 'in' k" := (Py.bind m (fun x => k))
  (at level 10, x name, m at level 100, k at level 200) : py_scope.
Notation "m ';;' k" := (Py.bind m (fun _ => k))
  (at level 100, k at level 200, right associativity) : py_scope.

(* ===================================================================== *)
(** * client.py                                                           *)
(* ===================================================================== *)

Module Client.

Import Py.
Local Open Scope py_scope.

Definition TESTNET_BASE_URL : string := "https://testnet.binancefuture.com".

Record BinanceClient : Type := {
  api_key : string;
  api_secret : string;
  base_url : string;
  (** [self.session.headers] *)
  session_headers : list (string * string)
}.

(** [s.rstrip("/")] *)
Definition rstrip_slash (s : string) : string :=
  let fix drop (l : list ascii) : list ascii :=
    match l with
    | c :: l' => if Ascii.eqb c "/" then drop l' else l
    | [] => []
    end in
  string_of_list_ascii (rev (drop (rev (list_ascii_of_string s)))).

Definition is_empty (s : string) : bool :=
  match s with EmptyString => true | _ => false end.

(** [BinanceClient.__init__] *)
Definition __init__ (api_key api_secret base_url : string) : M BinanceClient :=
  if is_empty api_key || is_empty api_secret then
    raise (OtherException "ValueError" "API key and secret must not be empty.")
  else
    let url := rstrip_slash base_url in
    log DEBUG "BinanceClient initialised with base URL: %s" [AVal (PStr url)] ;;
    ret {| api_key := api_key;
           api_secret := api_secret;
           base_url := url;
           session_headers :=
             [("X-MBX-APIKEY", api_key);
              ("Content-Type", "application/x-www-form-urlencoded")] |}.

Section Methods.

Context `{Builtins}.
Variable E : env.
Variable self : BinanceClient.

(** The digest [_sign] stores under [signature] for the dictionary
    contents [d]. *)
Definition signature_of (d : params) : string :=
  let query_string := urlencode d in
  Sha256.hex (Sha256.hmac_sha256 (Encoding.utf8 (api_secret self))
                                 (Encoding.utf8 query_string)).

(** What [_sign] leaves in a dictionary that held [d]: the timestamp is
    assigned first, the digest of the result is assigned last. *)
Definition signed_params (d : params) : params :=
  let d := Dict.set "timestamp" (PInt (now_ms E)) d in
  Dict.set "signature" (PStr (signature_of d)) d.

(** [BinanceClient._sign]: works on the caller's dictionary and returns
    that same object. *)
Definition _sign (params : loc) : M loc :=
  set_item params "timestamp" (PInt (now_ms E)) ;;
  let* d := read params in
  let signature := signature_of d in
  set_item params "signature" (PStr signature) ;;
  ret params.

(** [params or {}]: [None] and an empty dictionary both give a new
    empty dictionary. *)
Definition params_or_empty (params : option loc) : M loc :=
  match params with
  | None => alloc []
  | Some l =>
      let* d := read l in
      match d with
      | [] => alloc []
      | _ => ret l
      end
  end.

(** The part of [_request] that follows the decoding of the body. *)
Definition check_body (data : json) : M json :=
  match data with
  | JDict d =>
      match Dict.get "code" d with
      | Some code =>
          if ne_int code 200 then
            raise (BinanceAPIError code
                     (Dict.get_default "msg" (JStr "Unknown error") d))
          else ret data
      | None => ret data
      end
  | _ => ret data
  end.

(** The request [_request] hands to [session.request]. *)
Definition request_of (method url : string) (d : params) : http_request :=
  {| req_method := method; req_url := url;
     req_headers := session_headers self;
     req_params := d; req_timeout := 10 |}.

(** The part of [_request] that follows the call of [session.request]:
    the two [except] clauses, the decoding of the body and its check. *)
Definition handle_outcome (method url : string) (o : transport_outcome) : M json :=
  match o with
  | RaisesConnectionError exc =>
      log ERROR "Network error connecting to %s: %s"
          [AVal (PStr url); AVal (PStr exc)] ;;
      raise (ConnectionError ("Network error: " ++ exc))
  | RaisesTimeout =>
      log ERROR "Request timed out for %s" [AVal (PStr url)] ;;
      raise (TimeoutError ("Request to " ++ url ++ " timed out."))
  | RaisesOther e => raise e
  | Responds response =>
      log DEBUG "<< %s %s | status: %s | body: %s"
          [AVal (PStr (str_upper method)); AVal (PStr url);
           AVal (PInt (status_code response));
           AVal (PStr (substring 0 500 (text response)))] ;;
      match json_body response with
      | None =>
          log ERROR "Non-JSON response from %s: %s"
              [AVal (PStr url); AVal (PStr (substring 0 200 (text response)))] ;;
          raise (BinanceAPIError (JInt (-1))
                   (JStr ("Non-JSON response: "
                            ++ substring 0 200 (text response))))
      | Some data => check_body data
      end
  end.

(** [BinanceClient._request] *)
Definition _request (method endpoint : string) (params : option loc)
           (signed : bool) : M json :=
  let* params := params_or_empty params in
  let* params := (if signed then _sign params else ret params) in
  let url := (base_url self ++ endpoint)%string in
  let* d := read params in
  log DEBUG ">> %s %s | params: %s"
      [AVal (PStr (str_upper method)); AVal (PStr url); AParams d] ;;
  emit (HttpSend (request_of method url d)) ;;
  handle_outcome method url (send E (request_of method url d)).

(** [BinanceClient.get_exchange_info] *)
Definition get_exchange_info : M json :=
  _request "GET" "/fapi/v1/exchangeInfo" None false.

(** [BinanceClient.get_account] *)
Definition get_account : M json :=
  _request "GET" "/fapi/v2/account" None true.

(** The contents of the dictionary [place_order] assembles: the four
    entries of the display, then those of the conditional that applies. *)
Definition order_params (symbol side order_type : string)
           (quantity : PyFloat.float) (price stop_price : option PyFloat.float)
           (time_in_force : string) : params :=
  [("symbol", PStr symbol); ("side", PStr side); ("type", PStr order_type);
   ("quantity", PFloat quantity)]
    ++ (if String.eqb order_type "LIMIT"
        then [("price", of_opt_float price); ("timeInForce", PStr time_in_force)]
        else [])
    ++ (if String.eqb order_type "STOP_MARKET"
        then [("stopPrice", of_opt_float stop_price)]
        else []).

(** The first part of [place_order]: the dictionary display and the
    two conditional groups of assignments. *)
Definition assemble_params (symbol side order_type : string)
           (quantity : PyFloat.float) (price stop_price : option PyFloat.float)
           (time_in_force : string) : M loc :=
  let* params := alloc (Dict.of_list [("symbol", PStr symbol);
                                      ("side", PStr side);
                                      ("type", PStr order_type);
                                      ("quantity", PFloat quantity)]) in
  (if String.eqb order_type "LIMIT" then
     set_item params "price" (of_opt_float price) ;;
     set_item params "timeInForce" (PStr time_in_force)
   else ret tt) ;;
  (if String.eqb order_type "STOP_MARKET" then
     set_item params "stopPrice" (of_opt_float stop_price)
   else ret tt) ;;
  ret params.

(** [BinanceClient.place_order] *)
Definition place_order (symbol side order_type : string) (quantity : PyFloat.float)
           (price stop_price : option PyFloat.float) (time_in_force : string)
  : M json :=
  let* params := assemble_params symbol side order_type quantity price
                                 stop_price time_in_force in
  log INFO "Placing %s %s order | symbol=%s qty=%s price=%s stopPrice=%s"
      [AVal (PStr side); AVal (PStr order_type); AVal (PStr symbol);
       AVal (PFloat quantity); AVal (of_opt_float price);
       AVal (of_opt_float stop_price)] ;;
  _request "POST" "/fapi/v1/order" (Some params) true.

End Methods.

End Client.

(* ===================================================================== *)
(** * orders.py                                                           *)
(* ===================================================================== *)

Module Orders.

Import Py.
Local Open Scope py_scope.

Definition rule : string := "==================================================".

(** The line feed. *)
Definition nl : string := String "010" EmptyString.

(** [str.join] with a line feed, on lines of pieces. *)
Fixpoint join_lines (lines : list (list piece)) : list piece :=
  match lines with
  | [] => []
  | [l] => l
  | l :: rest => l ++ Lit nl :: join_lines rest
  end.

Definition _format_order_summary (symbol side order_type : string)
           (quantity : PyFloat.float) (price stop_price : option PyFloat.float)
  : list piece :=
  let lines :=
    [[Lit rule];
     [Lit "  ORDER REQUEST SUMMARY"];
     [Lit rule];
     [Lit "  Symbol     : "; Val (AVal (PStr symbol))];
     [Lit "  Side       : "; Val (AVal (PStr side))];
     [Lit "  Type       : "; Val (AVal (PStr order_type))];
     [Lit "  Quantity   : "; Val (AVal (PFloat quantity))]] in
  let lines :=
    match price with
    | Some p => lines ++ [[Lit "  Price      : "; Val (AVal (PFloat p))]]
    | None => lines
    end in
  let lines :=
    match stop_price with
    | Some sp => lines ++ [[Lit "  Stop Price : "; Val (AVal (PFloat sp))]]
    | None => lines
    end in
  join_lines (lines ++ [[Lit rule]]).

(** [response.get(k, 'N/A')] *)
Definition field (response : list (string * json)) (k : string) : piece :=
  Val (AJson (Dict.get_default k (JStr "N/A") response)).

Definition _format_order_response (response : list (string * json)) : list piece :=
  join_lines
    [[Lit rule];
     [Lit "  ORDER RESPONSE"];
     [Lit rule];
     [Lit "  Order ID   : "; field response "orderId"];
     [Lit "  Status     : "; field response "status"];
     [Lit "  Symbol     : "; field response "symbol"];
     [Lit "  Side       : "; field response "side"];
     [Lit "  Type       : "; field response "type"];
     [Lit "  Orig Qty   : "; field response "origQty"];
     [Lit "  Executed   : "; field response "executedQty"];
     [Lit "  Avg Price  : "; field response "avgPrice"];
     [Lit "  Price      : "; field response "price"];
     [Lit "  Time       : "; field response "updateTime"];
     [Lit rule]].

(** [response.get("orderId")]: [None] when the key is missing. *)
Definition get_or_null (k : string) (response : list (string * json)) : json :=
  Dict.get_default k JNull response.

Section PlaceOrder.

Context `{Builtins}.
Variable E : env.

(** The three [except] clauses of [place_order], tried in order; each
    logs, prints and re-raises the exception it caught. *)
Definition on_error (exc : exn) : M json :=
  match exc with
  | BinanceAPIError code message =>
      log ERROR "Order failed — Binance API error %s: %s"
          [AJson code; AJson message] ;;
      print [Lit nl; Lit "❌ ORDER FAILED"; Lit nl; Lit "   Binance API Error ";
             Val (AJson code); Lit ": "; Val (AJson message); Lit nl] ;;
      raise exc
  | ConnectionError _ | TimeoutError _ =>
      log ERROR "Order failed — network error: %s" [AExn exc] ;;
      print [Lit nl; Lit "❌ ORDER FAILED"; Lit nl; Lit "   Network error: ";
             Val (AExn exc); Lit nl] ;;
      raise exc
  | OtherException _ _ =>
      emit (Log ERROR "Unexpected error placing order: %s" [AExn exc] true) ;;
      print [Lit nl; Lit "❌ ORDER FAILED"; Lit nl; Lit "   Unexpected error: ";
             Val (AExn exc); Lit nl] ;;
      raise exc
  end.

(** The statements of [place_order] that precede the [try]. *)
Definition announce (symbol side order_type : string) (quantity : PyFloat.float)
           (price stop_price : option PyFloat.float) : M unit :=
  let summary := _format_order_summary symbol side order_type quantity
                                       price stop_price in
  print summary ;;
  log INFO "Order request | symbol=%s side=%s type=%s qty=%s price=%s stopPrice=%s"
      [AVal (PStr symbol); AVal (PStr side); AVal (PStr order_type);
       AVal (PFloat quantity); AVal (of_opt_float price);
       AVal (of_opt_float stop_price)].

(** The statements of [place_order] that follow the [try], for the
    response [response]. *)
Definition report (response : json) : M json :=
  match response with
  | JDict d =>
      print (_format_order_response d) ;;
      let status := Dict.get_default "status" (JStr "") d in
      (if in_strs status ["FILLED"; "NEW"; "PARTIALLY_FILLED"] then
         print [Lit nl; Lit "✅ ORDER PLACED SUCCESSFULLY (status: ";
                Val (AJson status); Lit ")"; Lit nl] ;;
         log INFO "Order placed successfully | orderId=%s status=%s"
             [AJson (get_or_null "orderId" d); AJson status]
       else
         print [Lit nl; Lit "⚠️  ORDER STATUS UNKNOWN: "; Val (AJson status);
                Lit nl] ;;
         log WARNING "Unexpected order status: %s | response: %s"
             [AJson status; AJson response]) ;;
      ret response
  | _ =>
      (* a response that is not a dictionary has no [get] *)
      raise (OtherException "AttributeError" "object has no attribute 'get'")
  end.

(** [place_order] *)
Definition place_order (client : Client.BinanceClient)
           (symbol side order_type : string) (quantity : PyFloat.float)
           (price stop_price : option PyFloat.float) : M json :=
  announce symbol side order_type quantity price stop_price ;;
  let* response :=
    catch (Client.place_order E client symbol side order_type quantity
                              price stop_price "GTC")
          on_error in
  report response.

End PlaceOrder.

End Orders.

(* ===================================================================== *)
(** * cli.py: [main]                                                      *)
(* ===================================================================== *)

Module Main.

Import Py Validators.
Local Open Scope py_scope.

(** The namespace [parse_args] returns: the six order arguments and the
    two optional credentials. *)
Record namespace : Type := {
  order : Cli.args;
  arg_api_key : option string;
  arg_api_secret : option string
}.

(** How the process ends: [main] returns, or [sys.exit(code)] is called
    ([parser.error] exits with status 2). *)
Inductive ending : Type :=
| Returns
| Exits (code : Z).

(** [a or os.environ.get(name, "")]: an argument that is missing or empty
    gives way to the environment. *)
Definition arg_or_env (a : option string) (name : string)
           (environ : Dict.t string) : string :=
  match a with
  | Some (String _ _ as s) => s
  | _ => Dict.get_default name "" environ
  end.

(** The world after the statements [m], whatever they return. *)
Definition after (m : M unit) (w : world) : world := snd (m w).

Section Program.

Context `{Builtins}.
Variable E : env.

(** [os.environ] *)
Variable environ : Dict.t string.

(** [str(exc)] for a [ValidationError]. *)
Variable validation_message : ValidationError -> string.

(** Whether the class of that name is [ValueError] or one of its
    subclasses. *)
Variable is_value_error : string -> bool.

(** A [ValidationError] as a value that can be logged and printed. *)
Definition as_exn (exc : ValidationError) : exn :=
  OtherException "ValidationError" (validation_message exc).

(** The exceptions of the first [except] clause of the second [try]:
    [BinanceAPIError], [ConnectionError], [TimeoutError], [ValueError]. *)
Definition exits_quietly (exc : exn) : bool :=
  match exc with
  | BinanceAPIError _ _ | ConnectionError _ | TimeoutError _ => true
  | OtherException cls _ => is_value_error cls
  end.

(** [main], from the parsed arguments on.  The usage message that
    [parser.error] writes to the standard error stream is not part of the
    trace. *)
Definition main (args : namespace) (w : world) : ending * world :=
  let api_key := arg_or_env (arg_api_key args) "BINANCE_API_KEY" environ in
  let api_secret := arg_or_env (arg_api_secret args) "BINANCE_API_SECRET" environ in
  if Client.is_empty api_key || Client.is_empty api_secret then (Exits 2, w)
  else
    match Cli.validate_args (order args) with
    | Raise exc =>
        (Exits 1,
         after (log ERROR "Input validation failed: %s" [AExn (as_exn exc)] ;;
                print [Lit Orders.nl; Lit "❌ VALIDATION ERROR: ";
                       Val (AExn (as_exn exc)); Lit Orders.nl]) w)
    | Ok req =>
        match (let* client := Client.__init__ api_key api_secret
                                              Client.TESTNET_BASE_URL in
               Orders.place_order E client (Cli.symbol req) (Cli.side req)
                 (Cli.order_type req) (Cli.quantity req) (Cli.price req)
                 (Cli.stop_price req)) w with
        | (Ok _, w') => (Returns, w')
        | (Raise exc, w') =>
            if exits_quietly exc then (Exits 1, w')
            else
              (Exits 1,
               after (emit (Log ERROR "Unhandled exception: %s" [AExn exc] true) ;;
                      print [Lit Orders.nl; Lit "❌ UNEXPECTED ERROR: ";
                             Val (AExn exc); Lit Orders.nl]) w')
        end
    end.

End Program.

End Main.

(** The events of one HTTP call. *)
Module Wire.

Import Py.

(** The [DEBUG] record and the call that [_request] adds to the trace
    when it sends the parameters [d]. *)
Definition sending `{Builtins} (self : Client.BinanceClient)
           (method url : string) (d : params) : list event :=
  [Log DEBUG ">> %s %s | params: %s"
       [AVal (PStr (str_upper method)); AVal (PStr url); AParams d] false;
   HttpSend (Client.request_of self method url d)].

End Wire.

(** Predicates on text used to state properties. *)
Module Text.

(** One of [0123456789abcdef]. *)
Definition is_lower_hex (c : ascii) : bool :=
  let n := nat_of_ascii c in
  ((48 <=? n)%nat && (n <=? 57)%nat) || ((97 <=? n)%nat && (n <=? 102)%nat).




End Text.

(* ===================================================================== *)
(** * Sample data                                                         *)
(* ===================================================================== *)

Module Sample.

Import Py.

Definition client : Client.BinanceClient :=
  {| Client.api_key := "key";
     Client.api_secret := "NhqPtmdSJYdKjVHjA7PZj4Mge3R5YNiP1e3UZjInClVN65XAbvqqM6A7H5fATj0j";
     Client.base_url := Client.TESTNET_BASE_URL;
     Client.session_headers :=
       [("X-MBX-APIKEY", "key");
        ("Content-Type", "application/x-www-form-urlencoded")] |}.

Definition filled : json :=
  JDict [("orderId", JInt 1); ("status", JStr "FILLED"); ("symbol", JStr "BTCUSDT")].

Definition insufficient_balance : json :=
  JDict [("code", JInt (-2010)); ("msg", JStr "Insufficient balance")].

Definition answer (body : string) (data : option json) : response :=
  {| status_code := 200; text := body; json_body := data |}.

(** An exchange that answers every request with [o], at a fixed time. *)
Definition exchange (o : transport_outcome) : env :=
  {| now_ms := 1499827319559; send := fun _ => o |}.

Definition empty_world : world := {| heap := ∅; trace := [] |}.

(** A world in which the caller holds one dictionary, at location 1. *)
Definition caller_params : params :=
  [("symbol", PStr "LTCBTC"); ("side", PStr "BUY"); ("type", PStr "LIMIT");
   ("timeInForce", PStr "GTC"); ("quantity", PInt 1); ("price", PStr "0.1");
   ("recvWindow", PInt 5000)].

Definition caller_world : world :=
  {| heap := {[ 1%positive := caller_params ]}; trace := [] |}.

Definition stop_market_args : Cli.args :=
  {| Cli.arg_symbol := "btcusdt"; Cli.arg_side := "buy";
     Cli.arg_order_type := "stop_market"; Cli.arg_quantity := "0.001";
     Cli.arg_price := Some "100000"; Cli.arg_stop_price := Some "95000" |}.

Definition limit_args : Cli.args :=
  {| Cli.arg_symbol := "BTCUSDT"; Cli.arg_side := "SELL";
     Cli.arg_order_type := "LIMIT"; Cli.arg_quantity := "0.001";
     Cli.arg_price := Some "100000"; Cli.arg_stop_price := None |}.

Definition market_args : Cli.args :=
  {| Cli.arg_symbol := "BTCUSDT"; Cli.arg_side := "BUY";
     Cli.arg_order_type := "MARKET"; Cli.arg_quantity := "0.001";
     Cli.arg_price := None; Cli.arg_stop_price := None |}.

(** [main] on the arguments [a], with an exchange that does [o]. *)
Definition run_order (o : transport_outcome) (a : Cli.args)
  : option (result exn json * world) :=
  match @Cli.validate_args AsciiRuntime.builtins a with
  | Ok req =>
      Some (@Orders.place_order AsciiRuntime.builtins (exchange o)
              client (Cli.symbol req) (Cli.side req) (Cli.order_type req)
              (Cli.quantity req) (Cli.price req) (Cli.stop_price req)
              empty_world)
  | Raise _ => None
  end.

(** The requests sent in a trace. *)
Definition requests (t : list event) : list http_request :=
  flat_map (fun e => match e with HttpSend r => [r] | _ => [] end) t.

Definition sent_params (o : transport_outcome) (a : Cli.args) : list params :=
  match run_order o a with
  | Some (_, w) => map req_params (requests (trace w))
  | None => []
  end.

End Sample.

(** Sample command lines, an environment that holds the credentials, and
    a rendering of validation errors by their names. *)
Module MainSample.

Import Py.

Definition environ : Dict.t string :=
  [("BINANCE_API_KEY", "key"); ("BINANCE_API_SECRET", "secret")].

Definition message (exc : Validators.ValidationError) : string :=
  match exc with
  | Validators.InvalidSymbol _ => "Invalid symbol"
  | Validators.InvalidSide _ => "Invalid side"
  | Validators.InvalidOrderType _ => "Invalid order type"
  | Validators.InvalidQuantity _ => "Invalid quantity"
  | Validators.QuantityNotPositive _ => "Quantity must be greater than 0"
  | Validators.PriceRequired _ => "Price is required"
  | Validators.InvalidPrice _ => "Invalid price"
  | Validators.PriceNotPositive _ => "Price must be greater than 0"
  | Validators.StopPriceRequired => "Stop price is required"
  | Validators.InvalidStopPrice _ => "Invalid stop price"
  | Validators.StopPriceNotPositive _ => "Stop price must be greater than 0"
  end.

Definition is_value_error (cls : string) : bool := String.eqb cls "ValueError".

Definition with_env (a : Cli.args) : Main.namespace :=
  {| Main.order := a; Main.arg_api_key := None; Main.arg_api_secret := None |}.

(** The stop-market example of the help text: no [--price]. *)
Definition stop_market_no_price : Cli.args :=
  {| Cli.arg_symbol := "BTCUSDT"; Cli.arg_side := "BUY";
     Cli.arg_order_type := "STOP_MARKET"; Cli.arg_quantity := "0.001";
     Cli.arg_price := None; Cli.arg_stop_price := Some "95000" |}.

Definition bad_symbol_and_quantity : Cli.args :=
  {| Cli.arg_symbol := "BTC-USDT"; Cli.arg_side := "BUY";
     Cli.arg_order_type := "MARKET"; Cli.arg_quantity := "abc";
     Cli.arg_price := None; Cli.arg_stop_price := None |}.

Definition run (o : transport_outcome) (a : Main.namespace) : Main.ending * world :=
  @Main.main AsciiRuntime.builtins (Sample.exchange o) environ message
             is_value_error a Sample.empty_world.

End MainSample.

(* ===================================================================== *)
(** * Properties of the validators                                        *)
(* ===================================================================== *)

Module ValidatorFacts.

Import PyFloat Validators.

Lemma str_in_market_price : str_in "MARKET" ["LIMIT"; "STOP_MARKET"] = false.
Proof. reflexivity. Qed.

(** C6: for a MARKET order, [validate_price] and [validate_stop_price]
    succeed with [None] whatever the raw price and stop price are: absent,
    malformed text, or any float. *)
Theorem market_price_and_stop_price_absent :
  forall price stop_price : raw,
    validate_price price "MARKET" = Ok None
    /\ validate_stop_price stop_price "MARKET" = Ok None.
Proof.
  intros price stop_price. split.
  - unfold validate_price. now rewrite str_in_market_price.
  - reflexivity.
Qed.

(** [milli] is a binary64 number and the one nearest to 1/1000: it is
    within half a unit in the last place, [2^-63], of it. *)
Lemma milli_nearest :
  valid_binary prec emax milli = true
  /\ exists v, value milli = Some v
               /\ (Qabs (v - (1 # 1000)) <= Qpower (2 # 1) (-63))%Q.
Proof.
  split; [reflexivity |].
  eexists; split; [reflexivity |].
  vm_compute. discriminate.
Qed.

(** C9: [validate_quantity] raises a [ValidationError] on ["0"], ["-1"]
    and ["abc"], and on ["0.001"] returns the float 0.001, the binary64
    number nearest to 1/1000. *)
Theorem validate_quantity_examples :
  validate_quantity (RStr "0") = Raise (QuantityNotPositive (S754_zero false))
  /\ validate_quantity (RStr "-1")
     = Raise (QuantityNotPositive (S754_finite true 4503599627370496 (-52)))
  /\ validate_quantity (RStr "abc") = Raise (InvalidQuantity (RStr "abc"))
  /\ validate_quantity (RStr "0.001") = Ok milli
  /\ valid_binary prec emax milli = true
  /\ exists v, value milli = Some v
               /\ (Qabs (v - (1 # 1000)) <= Qpower (2 # 1) (-63))%Q.
Proof.
  repeat split; try (vm_compute; reflexivity).
  apply milli_nearest.
Qed.

(** [validate_quantity] accepts exactly the values that convert to a
    float for which [qty <= 0] is false. *)
Lemma validate_quantity_ok_iff quantity qty :
  validate_quantity quantity = Ok qty
  <-> py_float quantity = Some qty /\ leb qty (of_Z 0) = false.
Proof.
  unfold validate_quantity.
  destruct (py_float quantity) as [f |].
  - destruct (leb f (of_Z 0)) eqn:Hle; split.
    + discriminate.
    + intros [[= <-] Hf]. congruence.
    + intros [= <-]. auto.
    + intros [[= <-] _]. reflexivity.
  - split; [discriminate | intros [Hf _]; discriminate].
Qed.

(** C10: [validate_quantity] succeeds on ["inf"] and ["nan"] and returns
    the infinity and the NaN: the parse succeeds, the test [qty <= 0] is
    false for both (a NaN is neither [<= 0] nor [> 0]), and nothing else
    is checked, so the value returned is not finite. *)
Theorem validate_quantity_accepts_non_finite :
  py_float (RStr "inf") = Some (S754_infinity false)
  /\ py_float (RStr "nan") = Some S754_nan
  /\ leb (S754_infinity false) (of_Z 0) = false
  /\ leb S754_nan (of_Z 0) = false
  /\ ltb (of_Z 0) S754_nan = false
  /\ validate_quantity (RStr "inf") = Ok (S754_infinity false)
  /\ validate_quantity (RStr "nan") = Ok S754_nan
  /\ is_finite (S754_infinity false) = false
  /\ is_finite S754_nan = false
  /\ (forall quantity qty,
        validate_quantity quantity = Ok qty
        <-> py_float quantity = Some qty /\ leb qty (of_Z 0) = false).
Proof.
  do 9 (split; [vm_compute; reflexivity |]).
  intros quantity qty. apply validate_quantity_ok_iff.
Qed.

End ValidatorFacts.

(* ===================================================================== *)
(** * Properties of dictionaries and of the monad                         *)
(* ===================================================================== *)

Module DictFacts.

Section Facts.

Context {V : Type}.
Implicit Types (d : Dict.t V) (k : string) (v : V).

Lemma get_set_eq k v d : Dict.get k (Dict.set k v d) = Some v.
Proof.
  induction d as [| [k' v'] d IH]; simpl.
  - now rewrite String.eqb_refl.
  - destruct (String.eqb k k') eqn:Hk; simpl; rewrite Hk; auto.
Qed.

Lemma get_set_ne k k' v d :
  k <> k' -> Dict.get k' (Dict.set k v d) = Dict.get k' d.
Proof.
  intros Hne. induction d as [| [k0 v0] d IH]; simpl.
  - destruct (String.eqb k' k) eqn:Hk; [| reflexivity].
    apply String.eqb_eq in Hk. congruence.
  - destruct (String.eqb k k0) eqn:Hk; simpl.
    + apply String.eqb_eq in Hk. subst k0.
      destruct (String.eqb k' k) eqn:Hk'; [| reflexivity].
      apply String.eqb_eq in Hk'. congruence.
    + now rewrite IH.
Qed.

Lemma set_absent k v d :
  Dict.get k d = None -> Dict.set k v d = d ++ [(k, v)].
Proof.
  induction d as [| [k' v'] d IH]; simpl; [reflexivity |].
  destruct (String.eqb k k'); [discriminate |].
  intros Hd. now rewrite IH.
Qed.

End Facts.

End DictFacts.

Module RunFacts.

Import Py.

Lemma bind_ok {A B} (m : M A) (k : A -> M B) w a w' :
  m w = (Ok a, w') -> bind m k w = k a w'.
Proof. unfold bind. now intros ->. Qed.

Lemma read_run l d w : heap w !! l = Some d -> read l w = (Ok d, w).
Proof. unfold read. now intros ->. Qed.

Lemma set_item_run l k v d w :
  heap w !! l = Some d ->
  set_item l k v w
  = (Ok tt, {| heap := <[l := Dict.set k v d]> (heap w); trace := trace w |}).
Proof. unfold set_item. now intros ->. Qed.

Lemma alloc_fresh w : heap w !! fresh (dom (heap w)) = None.
Proof. apply not_elem_of_dom, is_fresh. Qed.

End RunFacts.

(* ===================================================================== *)
(** * Properties of the signer                                            *)
(* ===================================================================== *)

Module SignFacts.

Import Py Client RunFacts.

Section Sign.

Context `{Builtins}.
Variable E : env.
Variable self : BinanceClient.

(** [_sign] run on a dictionary that exists. *)
Lemma sign_run l d w :
  heap w !! l = Some d ->
  _sign E self l w
  = (Ok l, {| heap := <[l := signed_params E self d]> (heap w);
              trace := trace w |}).
Proof.
  intros Hl. unfold _sign.
  erewrite bind_ok by (apply set_item_run; eassumption).
  erewrite bind_ok by (apply read_run; simpl; apply lookup_insert_eq).
  erewrite bind_ok by (apply set_item_run; simpl; apply lookup_insert_eq).
  unfold ret, signed_params. simpl. now rewrite insert_insert_eq.
Qed.

(** C2, as the code has it: [_sign] returns the caller's own dictionary
    object, into which it has written the [timestamp] and [signature]
    entries.  Every other entry of that dictionary keeps its value, every
    other dictionary and the event trace are unchanged. *)
Theorem sign_updates_the_callers_mapping_in_place l d w :
  heap w !! l = Some d ->
  exists w',
    _sign E self l w = (Ok l, w')
    /\ heap w' !! l = Some (signed_params E self d)
    /\ Dict.get "timestamp" (signed_params E self d) = Some (PInt (now_ms E))
    /\ Dict.mem "signature" (signed_params E self d) = true
    /\ (forall k, k <> "timestamp" -> k <> "signature" ->
          Dict.get k (signed_params E self d) = Dict.get k d)
    /\ (forall l', l' <> l -> heap w' !! l' = heap w !! l')
    /\ trace w' = trace w.
Proof.
  intros Hl. eexists. split; [apply sign_run; eassumption |]. simpl.
  repeat split.
  - apply lookup_insert_eq.
  - unfold signed_params.
    rewrite DictFacts.get_set_ne by discriminate.
    apply DictFacts.get_set_eq.
  - unfold Dict.mem, signed_params. now rewrite DictFacts.get_set_eq.
  - intros k Ht Hs. unfold signed_params.
    rewrite !DictFacts.get_set_ne by congruence. reflexivity.
  - intros l' Hne. now apply lookup_insert_ne.
Qed.

(** C3: the digest stored under [signature] is the hexadecimal
    HMAC-SHA256, keyed by the UTF-8 bytes of the secret, of the URL-encoded
    text of the dictionary as it is once the timestamp has been assigned
    and before the signature is: all entries in insertion order, the
    timestamp among them.  For a dictionary that has no [signature] entry
    yet, that text has none either and the new entry is the last one. *)
Theorem signature_is_hmac_of_encoded_params l d w :
  heap w !! l = Some d ->
  exists w' payload sig,
    _sign E self l w = (Ok l, w')
    /\ payload = Dict.set "timestamp" (PInt (now_ms E)) d
    /\ Dict.get "timestamp" payload = Some (PInt (now_ms E))
    /\ sig = Sha256.hex (Sha256.hmac_sha256
                           (Encoding.utf8 (api_secret self))
                           (Encoding.utf8 (urlencode payload)))
    /\ urlencode payload
       = String.concat "&"
           (map (fun kv => (Encoding.quote_plus (fst kv) ++ "="
                              ++ Encoding.quote_plus (str (snd kv)))%string)
                payload)
    /\ heap w' !! l = Some (Dict.set "signature" (PStr sig) payload)
    /\ (Dict.get "signature" d = None ->
        Dict.get "signature" payload = None
        /\ Dict.set "signature" (PStr sig) payload
           = payload ++ [("signature", PStr sig)]).
Proof.
  intros Hl. do 3 eexists.
  split; [apply sign_run; eassumption |].
  split; [reflexivity |].
  split; [apply DictFacts.get_set_eq |].
  split; [reflexivity |].
  split; [reflexivity |].
  split; [simpl; apply lookup_insert_eq |].
  intros Hd.
  assert (Hp : Dict.get "signature" (Dict.set "timestamp" (PInt (now_ms E)) d) = None)
    by (rewrite DictFacts.get_set_ne by discriminate; exact Hd).
  split; [exact Hp |].
  now apply DictFacts.set_absent.
Qed.

End Sign.

(** C2, as stated, fails: signing the caller's dictionary of seven entries
    returns that dictionary itself, which now has nine. *)
Lemma sign_changes_the_callers_mapping :
  exists w',
    @_sign AsciiRuntime.builtins (Sample.exchange RaisesTimeout) Sample.client
           1%positive Sample.caller_world
    = (Ok 1%positive, w')
    /\ heap Sample.caller_world !! 1%positive = Some Sample.caller_params
    /\ heap w' !! 1%positive
       = Some (Sample.caller_params
                 ++ [("timestamp", PInt 1499827319559);
                     ("signature",
                      PStr "c8db56825ae71d6d79447849e617115f4a920fa2acdcab2b053c4b2838bd6b71")])
    /\ heap w' !! 1%positive <> heap Sample.caller_world !! 1%positive.
Proof.
  eexists. split; [apply sign_run; reflexivity |].
  split; [reflexivity |].
  split; [vm_compute; reflexivity |].
  vm_compute. discriminate.
Qed.

(** The hypothesis of the two theorems on [_sign] holds in the sample
    world. *)
Lemma sign_updates_the_callers_mapping_in_place_witness :
  heap Sample.caller_world !! 1%positive = Some Sample.caller_params
  /\ exists w',
    @_sign AsciiRuntime.builtins (Sample.exchange RaisesTimeout) Sample.client
           1%positive Sample.caller_world
    = (Ok 1%positive, w')
    /\ trace w' = trace Sample.caller_world.
Proof.
  destruct (@sign_updates_the_callers_mapping_in_place
              AsciiRuntime.builtins (Sample.exchange RaisesTimeout) Sample.client
              1%positive Sample.caller_params Sample.caller_world)
    as (w' & Hrun & _ & _ & _ & _ & _ & Htrace).
  - reflexivity.
  - split; [reflexivity |]. exists w'. split; assumption.
Defined.

Lemma signature_is_hmac_of_encoded_params_witness :
  heap Sample.caller_world !! 1%positive = Some Sample.caller_params
  /\ exists w' payload sig,
    @_sign AsciiRuntime.builtins (Sample.exchange RaisesTimeout) Sample.client
           1%positive Sample.caller_world
    = (Ok 1%positive, w')
    /\ heap w' !! 1%positive = Some (Dict.set "signature" (PStr sig) payload).
Proof.
  destruct (@signature_is_hmac_of_encoded_params
              AsciiRuntime.builtins (Sample.exchange RaisesTimeout) Sample.client
              1%positive Sample.caller_params Sample.caller_world)
    as (w' & payload & sig & Hrun & _ & _ & _ & _ & Hheap & _).
  - reflexivity.
  - split; [reflexivity |]. exists w', payload, sig. split; assumption.
Defined.

End SignFacts.

(* ===================================================================== *)
(** * Properties of the transport                                         *)
(* ===================================================================== *)

Module RequestFacts.

Import Py Client RunFacts.

Lemma substring_0_length n s :
  String.length (substring 0 n s) = Nat.min n (String.length s).
Proof.
  revert s. induction n as [| n IH]; intros [| c s]; simpl; auto.
Qed.

Lemma substring_0_prefix n s :
  exists rest, s = (substring 0 n s ++ rest)%string.
Proof.
  revert s. induction n as [| n IH]; intros [| c s]; simpl.
  - now exists EmptyString.
  - now exists (String c s).
  - now exists EmptyString.
  - destruct (IH s) as [rest Hrest]. exists rest.
    change (String c s = String c (substring 0 n s ++ rest)%string).
    now rewrite <- Hrest.
Qed.

Section Request.

Context `{Builtins}.
Variable E : env.
Variable self : BinanceClient.

(** [check_body] either raises the error the body describes and leaves
    the world alone, or returns the body. *)
Lemma check_body_cases data w :
  (exists d code,
      data = JDict d /\ Dict.get "code" d = Some code /\ ne_int code 200 = true
      /\ check_body data w
         = (Raise (BinanceAPIError code
                     (Dict.get_default "msg" (JStr "Unknown error") d)), w))
  \/ (~ error_body data /\ check_body data w = (Ok data, w)).
Proof.
  unfold error_body.
  destruct data as [| b | z | f | s | l | d];
    try (right; split; [intros (d' & c & Hd & _); discriminate | reflexivity]).
  simpl. destruct (Dict.get "code" d) as [code |] eqn:Hcode.
  - destruct (ne_int code 200) eqn:Hne.
    + left. exists d, code. auto.
    + right. split; [| reflexivity].
      intros (d' & c & Hd & Hc & Hn). injection Hd as <-. congruence.
  - right. split; [| reflexivity].
    intros (d' & c & Hd & Hc & Hn). injection Hd as <-. congruence.
Qed.

Lemma params_or_empty_run params w :
  valid_params params w ->
  exists l d w0,
    params_or_empty params w = (Ok l, w0)
    /\ heap w0 !! l = Some d /\ trace w0 = trace w.
Proof.
  destruct params as [l |]; simpl.
  - intros [d Hd]. unfold bind. rewrite (read_run _ _ _ Hd).
    destruct d as [| kv d].
    + eexists _, [], _. split; [reflexivity |]. simpl.
      split; [apply lookup_insert_eq | reflexivity].
    + exists l, (kv :: d), w. auto.
  - intros _. eexists _, [], _. split; [reflexivity |]. simpl.
    split; [apply lookup_insert_eq | reflexivity].
Qed.

(** Up to the call of [session.request], [_request] cannot fail: it logs
    the request, performs it once and goes on with its outcome. *)
Lemma request_run method endpoint params signed w :
  valid_params params w ->
  exists d w1,
    _request E self method endpoint params signed w
    = handle_outcome method (base_url self ++ endpoint)%string
        (send E (request_of self method (base_url self ++ endpoint)%string d)) w1
    /\ trace w1
       = trace w
           ++ [Log DEBUG ">> %s %s | params: %s"
                   [AVal (PStr (str_upper method));
                    AVal (PStr (base_url self ++ endpoint)%string); AParams d]
                   false;
               HttpSend (request_of self method (base_url self ++ endpoint)%string d)].
Proof.
  intros Hv.
  destruct (params_or_empty_run params w Hv) as (l & d0 & w0 & Hrun & Hl & Ht).
  unfold _request. rewrite (bind_ok _ _ _ _ _ Hrun).
  destruct signed.
  - rewrite (bind_ok _ _ _ _ _ (SignFacts.sign_run E self l d0 w0 Hl)).
    erewrite bind_ok by (apply read_run; simpl; apply lookup_insert_eq).
    eexists _, _. split; [reflexivity |]. simpl.
    now rewrite Ht, <- app_assoc.
  - rewrite (bind_ok _ _ _ _ _ (eq_refl : ret l w0 = (Ok l, w0))).
    rewrite (bind_ok _ _ _ _ _ (read_run _ _ _ Hl)).
    eexists _, _. split; [reflexivity |]. simpl.
    now rewrite Ht, <- app_assoc.
Qed.

(** What [_request] does once the exchange has answered [r]. *)
Lemma request_responds method endpoint params signed w r :
  valid_params params w ->
  (forall req, send E req = Responds r) ->
  exists w1,
    _request E self method endpoint params signed w
    = match json_body r with
      | None =>
          (log ERROR "Non-JSON response from %s: %s"
               [AVal (PStr (base_url self ++ endpoint)%string);
                AVal (PStr (substring 0 200 (text r)))] ;;
           raise (BinanceAPIError (JInt (-1))
                    (JStr ("Non-JSON response: " ++ substring 0 200 (text r)))))%py
            w1
      | Some data => check_body data w1
      end.
Proof.
  intros Hv Hsend.
  destruct (request_run method endpoint params signed w Hv) as (d & w1 & Hrun & _).
  rewrite Hrun, Hsend. unfold handle_outcome.
  eexists. unfold bind at 1. simpl. destruct (json_body r); reflexivity.
Qed.

(** C4: when the body of the response decodes to [data], [_request] raises
    [BinanceAPIError] exactly when [data] is a dictionary with a [code]
    entry different from 200; the error carries that code and the [msg]
    entry, or ["Unknown error"] when there is none.  Any other decoded body
    is returned as it is. *)
Theorem request_raises_api_error_iff_code_not_200
        method endpoint params signed w r data :
  valid_params params w ->
  (forall req, send E req = Responds r) ->
  json_body r = Some data ->
  exists out w',
    _request E self method endpoint params signed w = (out, w')
    /\ ((exists code message, out = Raise (BinanceAPIError code message))
        <-> error_body data)
    /\ (forall d code,
          data = JDict d -> Dict.get "code" d = Some code ->
          ne_int code 200 = true ->
          out = Raise (BinanceAPIError code
                         match Dict.get "msg" d with
                         | Some m => m
                         | None => JStr "Unknown error"
                         end))
    /\ (~ error_body data -> out = Ok data).
Proof.
  intros Hv Hsend Hjson.
  destruct (request_responds method endpoint params signed w r Hv Hsend)
    as (w1 & Hrun).
  rewrite Hjson in Hrun.
  destruct (check_body_cases data w1)
    as [(d & code & Hd & Hcode & Hne & Hchk) | (Hnot & Hchk)];
    rewrite Hchk in Hrun; eexists _, _; (split; [exact Hrun |]).
  - assert (Herr : error_body data) by (exists d, code; auto).
    split; [split; [intros _; exact Herr | intros _; eauto] |].
    split; [| intros Hn; contradiction].
    intros d' code' Hd' Hcode' _. subst data. injection Hd' as <-.
    rewrite Hcode in Hcode'. injection Hcode' as <-. reflexivity.
  - split; [split; [intros (c & m & Hout); discriminate | intros He; contradiction] |].
    split; [| intros _; reflexivity].
    intros d code Hd Hcode Hne. exfalso. apply Hnot. exists d, code. auto.
Qed.

(** C5: when the body of the response does not decode as JSON, [_request]
    raises [BinanceAPIError] with code -1 and a message that ends with the
    first 200 characters of the body (the whole body when it is shorter);
    it does not return. *)
Theorem request_non_json_body_raises_api_error
        method endpoint params signed w r :
  valid_params params w ->
  (forall req, send E req = Responds r) ->
  json_body r = None ->
  exists w' snippet rest,
    _request E self method endpoint params signed w
    = (Raise (BinanceAPIError (JInt (-1))
                (JStr ("Non-JSON response: " ++ snippet))), w')
    /\ snippet = substring 0 200 (text r)
    /\ text r = (snippet ++ rest)%string
    /\ (String.length snippet <= 200)%nat
    /\ String.length snippet = Nat.min 200 (String.length (text r)).
Proof.
  intros Hv Hsend Hjson.
  destruct (request_responds method endpoint params signed w r Hv Hsend)
    as (w1 & Hrun).
  rewrite Hjson in Hrun.
  destruct (substring_0_prefix 200 (text r)) as [rest Hrest].
  eexists _, _, rest. split; [exact Hrun |].
  split; [reflexivity |]. split; [exact Hrest |].
  rewrite substring_0_length. split; [apply Nat.le_min_l | reflexivity].
Qed.

End Request.

Lemma request_raises_api_error_iff_code_not_200_witness :
  exists w',
    @_request AsciiRuntime.builtins
      (Sample.exchange (Responds (Sample.answer "" (Some Sample.insufficient_balance))))
      Sample.client "POST" "/fapi/v1/order" None true Sample.empty_world
    = (Raise (BinanceAPIError (JInt (-2010)) (JStr "Insufficient balance")), w').
Proof.
  destruct (@request_raises_api_error_iff_code_not_200 AsciiRuntime.builtins
              (Sample.exchange
                 (Responds (Sample.answer "" (Some Sample.insufficient_balance))))
              Sample.client "POST" "/fapi/v1/order" None true Sample.empty_world
              (Sample.answer "" (Some Sample.insufficient_balance))
              Sample.insufficient_balance)
    as (out & w' & Hrun & _ & Hcode & _).
  - exact I.
  - intros req. reflexivity.
  - reflexivity.
  - exists w'. rewrite Hrun. f_equal.
    apply (Hcode [("code", JInt (-2010)); ("msg", JStr "Insufficient balance")]
                 (JInt (-2010))); reflexivity.
Defined.

Lemma request_non_json_body_raises_api_error_witness :
  exists w',
    @_request AsciiRuntime.builtins
      (Sample.exchange (Responds (Sample.answer "<html>Bad Gateway</html>" None)))
      Sample.client "GET" "/fapi/v1/exchangeInfo" None false Sample.empty_world
    = (Raise (BinanceAPIError (JInt (-1))
                (JStr "Non-JSON response: <html>Bad Gateway</html>")), w').
Proof.
  destruct (@request_non_json_body_raises_api_error AsciiRuntime.builtins
              (Sample.exchange
                 (Responds (Sample.answer "<html>Bad Gateway</html>" None)))
              Sample.client "GET" "/fapi/v1/exchangeInfo" None false
              Sample.empty_world
              (Sample.answer "<html>Bad Gateway</html>" None))
    as (w' & snippet & rest & Hrun & Hsnip & _).
  - exact I.
  - intros req. reflexivity.
  - reflexivity.
  - exists w'. rewrite Hrun, Hsnip. reflexivity.
Defined.

End RequestFacts.

(* ===================================================================== *)
(** * Properties of order placement                                       *)
(* ===================================================================== *)

Module OrderFacts.

Import Py Validators RunFacts.

Lemma count_sends_app t t' :
  count_sends (t ++ t') = (count_sends t + count_sends t')%nat.
Proof. unfold count_sends. now rewrite List.filter_app, List.length_app. Qed.

Lemma count_sends_snoc t e :
  count_sends (t ++ [e]) = (count_sends t + if is_send e then 1 else 0)%nat.
Proof. rewrite count_sends_app. f_equal. unfold count_sends. simpl. now destruct (is_send e). Qed.

Lemma count_sends_snoc_log t lvl template args exc_info :
  count_sends (t ++ [Log lvl template args exc_info]) = count_sends t.
Proof. rewrite count_sends_snoc. simpl. lia. Qed.

Lemma count_sends_snoc_print t text :
  count_sends (t ++ [Print text]) = count_sends t.
Proof. rewrite count_sends_snoc. simpl. lia. Qed.

Section Validated.

Context `{Builtins}.

Lemma validate_args_inv a req :
  Cli.validate_args a = Ok req ->
  validate_symbol (Cli.arg_symbol a) = Ok (Cli.symbol req)
  /\ validate_side (Cli.arg_side a) = Ok (Cli.side req)
  /\ validate_order_type (Cli.arg_order_type a) = Ok (Cli.order_type req)
  /\ validate_quantity (RStr (Cli.arg_quantity a)) = Ok (Cli.quantity req)
  /\ validate_price (Cli.raw_of (Cli.arg_price a)) (Cli.order_type req)
     = Ok (Cli.price req)
  /\ validate_stop_price (Cli.raw_of (Cli.arg_stop_price a)) (Cli.order_type req)
     = Ok (Cli.stop_price req).
Proof.
  unfold Cli.validate_args, Cli.bind.
  destruct (validate_symbol _) as [sy |]; [| discriminate].
  destruct (validate_side _) as [si |]; [| discriminate].
  destruct (validate_order_type _) as [ot |]; [| discriminate].
  destruct (validate_quantity _) as [q |]; [| discriminate].
  destruct (validate_price _ ot) as [p |] eqn:Hp; [| discriminate].
  destruct (validate_stop_price _ ot) as [sp |] eqn:Hsp; [| discriminate].
  intros [= <-]. simpl. repeat split; auto.
Qed.

Lemma validate_order_type_valid raw ot :
  validate_order_type raw = Ok ot ->
  ot = "MARKET" \/ ot = "LIMIT" \/ ot = "STOP_MARKET".
Proof.
  unfold validate_order_type, str_in, VALID_ORDER_TYPES. simpl.
  destruct (String.eqb_spec (str_upper (str_strip raw)) "MARKET") as [-> |];
    [intros [= <-]; auto |].
  destruct (String.eqb_spec (str_upper (str_strip raw)) "LIMIT") as [-> |];
    [intros [= <-]; auto |].
  destruct (String.eqb_spec (str_upper (str_strip raw)) "STOP_MARKET") as [-> |];
    [intros [= <-]; auto |].
  discriminate.
Qed.

Lemma validate_price_present raw ot p :
  validate_price raw ot = Ok p ->
  is_Some p <-> (ot = "LIMIT" \/ ot = "STOP_MARKET").
Proof.
  unfold validate_price, str_in. simpl.
  destruct (String.eqb_spec ot "LIMIT") as [-> | Hl]; simpl.
  - destruct raw; [discriminate | |];
      (destruct (py_float _); [| discriminate]);
      (destruct (PyFloat.leb _ _); [discriminate |]);
      intros [= <-]; split; eauto.
  - destruct (String.eqb_spec ot "STOP_MARKET") as [-> | Hs]; simpl.
    + destruct raw; [discriminate | |];
        (destruct (py_float _); [| discriminate]);
        (destruct (PyFloat.leb _ _); [discriminate |]);
        intros [= <-]; split; eauto.
    + intros [= <-]. split; [intros [x Hx]; discriminate | tauto].
Qed.

Lemma validate_stop_price_present raw ot sp :
  validate_stop_price raw ot = Ok sp ->
  is_Some sp <-> ot = "STOP_MARKET".
Proof.
  unfold validate_stop_price.
  destruct (String.eqb_spec ot "STOP_MARKET") as [-> | Hs].
  - destruct raw; [discriminate | |];
      (destruct (py_float _); [| discriminate]);
      (destruct (PyFloat.leb _ _); [discriminate |]);
      intros [= <-]; split; eauto.
  - intros [= <-]. split; [intros [x Hx]; discriminate | tauto].
Qed.

End Validated.

(** Closes the routine cases of a property of a concrete dictionary. *)
Ltac settle :=
  first [ reflexivity | discriminate | tauto
        | (let x := fresh in let Hx := fresh in intros [x Hx]; discriminate)
        | (let v := fresh in intros v [= <-]; eauto)
        | eauto ].

Section Assemble.

Context `{Builtins}.

(** [assemble_params] creates one new dictionary, with the contents
    [order_params], and touches nothing else. *)
Lemma assemble_params_run sym side ot q p sp tif w :
  Client.assemble_params sym side ot q p sp tif w
  = (Ok (fresh (dom (heap w))),
     {| heap := <[fresh (dom (heap w)) :=
                    Client.order_params sym side ot q p sp tif]> (heap w);
        trace := trace w |}).
Proof.
  unfold Client.assemble_params, Client.order_params.
  unfold bind, alloc, set_item, ret. simpl.
  destruct (String.eqb_spec ot "LIMIT") as [-> | Hl]; simpl.
  - rewrite !lookup_insert_eq. simpl. rewrite !lookup_insert_eq. simpl.
    now rewrite !insert_insert_eq.
  - destruct (String.eqb ot "STOP_MARKET"); simpl; [| reflexivity].
    rewrite !lookup_insert_eq. simpl. now rewrite !insert_insert_eq.
Qed.

(** C1, as the code has it: for a validated request, [place_order]
    assembles a new dictionary whose keys are [symbol], [side], [type] and
    [quantity], followed by [price] and [timeInForce] exactly for a LIMIT
    order and by [stopPrice] exactly for a STOP_MARKET order.  The four base
    entries hold the validated values; [stopPrice] is there exactly when the
    validator produced a stop price, and holds it; a LIMIT order has a
    validated price, which is sent; and a price that is sent is always the
    one the validator produced. *)
Theorem assembled_params_follow_order_type a req w :
  Cli.validate_args a = Ok req ->
  exists l w' d,
    Client.assemble_params (Cli.symbol req) (Cli.side req) (Cli.order_type req)
      (Cli.quantity req) (Cli.price req) (Cli.stop_price req) "GTC" w
    = (Ok l, w')
    /\ heap w !! l = None
    /\ heap w' !! l = Some d
    /\ Dict.keys d
       = ["symbol"; "side"; "type"; "quantity"]
           ++ (if String.eqb (Cli.order_type req) "LIMIT"
               then ["price"; "timeInForce"] else [])
           ++ (if String.eqb (Cli.order_type req) "STOP_MARKET"
               then ["stopPrice"] else [])
    /\ Dict.get "symbol" d = Some (PStr (Cli.symbol req))
    /\ Dict.get "side" d = Some (PStr (Cli.side req))
    /\ Dict.get "type" d = Some (PStr (Cli.order_type req))
    /\ Dict.get "quantity" d = Some (PFloat (Cli.quantity req))
    /\ (Cli.order_type req = "LIMIT" ->
        exists p, Cli.price req = Some p
                  /\ Dict.get "price" d = Some (PFloat p)
                  /\ Dict.get "timeInForce" d = Some (PStr "GTC"))
    /\ (is_Some (Cli.stop_price req) <-> Cli.order_type req = "STOP_MARKET")
    /\ Dict.get "stopPrice" d = option_map PFloat (Cli.stop_price req)
    /\ (forall v, Dict.get "price" d = Some v ->
                  exists p, Cli.price req = Some p /\ v = PFloat p)
    /\ (is_Some (Cli.price req) ->
        Cli.order_type req = "LIMIT" \/ Cli.order_type req = "STOP_MARKET").
Proof.
  intros Hreq.
  destruct (validate_args_inv a req Hreq) as (_ & _ & Hot & _ & Hp & Hsp).
  apply validate_order_type_valid in Hot.
  apply validate_price_present in Hp.
  apply validate_stop_price_present in Hsp.
  destruct req as [sy si ot q p sp]. simpl in *.
  do 3 eexists.
  split; [apply assemble_params_run |].
  split; [apply alloc_fresh |].
  split; [simpl; apply lookup_insert_eq |].
  unfold Client.order_params.
  destruct Hot as [-> | [-> | ->]]; simpl.
  - (* MARKET *)
    assert (p = None) as ->.
    { destruct p; [| reflexivity].
      destruct Hp as [Hp _]. destruct Hp; [eauto | discriminate | discriminate]. }
    assert (sp = None) as ->.
    { destruct sp; [| reflexivity].
      destruct Hsp as [Hsp _]. discriminate Hsp; eauto. }
    repeat split; settle.
  - (* LIMIT *)
    destruct p as [p |]; [| destruct Hp as [_ Hp]; destruct Hp as [x Hx]; [auto | discriminate]].
    assert (sp = None) as ->.
    { destruct sp; [| reflexivity].
      destruct Hsp as [Hsp _]. discriminate Hsp; eauto. }
    repeat split; settle.
  - (* STOP_MARKET *)
    destruct sp as [sp |]; [| destruct Hsp as [_ Hsp]; destruct Hsp as [x Hx]; [auto | discriminate]].
    repeat split; settle.
Qed.

End Assemble.

(** C1, as stated, fails: the price of a validated STOP_MARKET request is
    present, and the dictionary assembled for it has no [price] entry. *)
Lemma stop_market_price_is_validated_but_not_sent :
  exists req l w' d,
    @Cli.validate_args AsciiRuntime.builtins Sample.stop_market_args = Ok req
    /\ Cli.order_type req = "STOP_MARKET"
    /\ Cli.price req = Some (S754_finite false 6871947673600000 (-36))
    /\ Client.assemble_params (Cli.symbol req) (Cli.side req) (Cli.order_type req)
         (Cli.quantity req) (Cli.price req) (Cli.stop_price req) "GTC"
         Sample.empty_world
       = (Ok l, w')
    /\ heap w' !! l = Some d
    /\ Dict.keys d = ["symbol"; "side"; "type"; "quantity"; "stopPrice"]
    /\ Dict.get "price" d = None.
Proof.
  do 4 eexists.
  split; [vm_compute; reflexivity |].
  split; [reflexivity |].
  split; [reflexivity |].
  split; [apply assemble_params_run |].
  split; [simpl; apply lookup_insert_eq |].
  split; reflexivity.
Qed.

Lemma assembled_params_follow_order_type_witness :
  @Cli.validate_args AsciiRuntime.builtins Sample.limit_args
  = Ok {| Cli.symbol := "BTCUSDT"; Cli.side := "SELL"; Cli.order_type := "LIMIT";
          Cli.quantity := PyFloat.milli;
          Cli.price := Some (S754_finite false 6871947673600000 (-36));
          Cli.stop_price := None |}
  /\ exists l w' d,
      Client.assemble_params "BTCUSDT" "SELL" "LIMIT" PyFloat.milli
        (Some (S754_finite false 6871947673600000 (-36))) None "GTC"
        Sample.empty_world
      = (Ok l, w')
      /\ heap w' !! l = Some d
      /\ Dict.keys d
         = ["symbol"; "side"; "type"; "quantity"; "price"; "timeInForce"].
Proof.
  split; [vm_compute; reflexivity |].
  destruct (@assembled_params_follow_order_type AsciiRuntime.builtins
              Sample.limit_args
              {| Cli.symbol := "BTCUSDT"; Cli.side := "SELL";
                 Cli.order_type := "LIMIT"; Cli.quantity := PyFloat.milli;
                 Cli.price := Some (S754_finite false 6871947673600000 (-36));
                 Cli.stop_price := None |}
              Sample.empty_world)
    as (l & w' & d & Hrun & _ & Hd & Hkeys & _).
  - vm_compute. reflexivity.
  - exists l, w', d. auto.
Defined.

Section Place.

Context `{Builtins}.
Variable E : env.
Variable client : Client.BinanceClient.

Lemma announce_run sym side ot q p sp w :
  Orders.announce sym side ot q p sp w
  = (Ok tt, snd (Orders.announce sym side ot q p sp w)).
Proof. reflexivity. Qed.

(** Each [except] clause adds an ERROR record and a message on the console,
    and raises the exception it caught. *)
Lemma on_error_run exc w :
  exists record text,
    Orders.on_error exc w
    = (Raise exc, {| heap := heap w; trace := trace w ++ [record; Print text] |})
    /\ is_log_at ERROR record = true.
Proof.
  destruct exc; simpl; unfold bind, log, print, emit, raise; simpl;
    rewrite <- app_assoc; simpl; eexists _, _; split; reflexivity.
Qed.

(** What follows the call of [session.request] performs no call. *)
Lemma handle_outcome_sends method url o w :
  count_sends (trace (snd (Client.handle_outcome method url o w)))
  = count_sends (trace w).
Proof.
  destruct o as [r | exc | | e]; simpl;
    unfold bind, log, emit, raise; simpl;
    rewrite ?count_sends_snoc_log; try reflexivity.
  destruct (json_body r) as [data |]; simpl.
  - match goal with
    | |- context [Client.check_body data ?w0] =>
        destruct (RequestFacts.check_body_cases data w0)
          as [(d & code & _ & _ & _ & ->) | (_ & ->)]
    end; simpl; now rewrite count_sends_snoc_log.
  - now rewrite !count_sends_snoc_log.
Qed.

(** [BinanceClient.place_order] performs exactly one HTTP call, whatever
    the exchange does. *)
Lemma client_place_order_sends_once sym side ot q p sp tif w :
  count_sends (trace (snd (Client.place_order E client sym side ot q p sp tif w)))
  = S (count_sends (trace w)).
Proof.
  unfold Client.place_order.
  rewrite (bind_ok _ _ _ _ _ (assemble_params_run sym side ot q p sp tif w)).
  unfold bind at 1. unfold log, emit at 1.
  match goal with
  | |- context [Client._request E client ?m ?ep (Some ?l) true ?w0] =>
      destruct (RequestFacts.request_run E client m ep (Some l) true w0)
        as (d & w1 & -> & Ht)
  end.
  { simpl. rewrite lookup_insert_eq. eauto. }
  rewrite handle_outcome_sends, Ht. simpl.
  change (?t ++ [?a; ?b]) with (t ++ [a] ++ [b]).
  rewrite app_assoc, count_sends_snoc, !count_sends_snoc_log. simpl. lia.
Qed.

Lemma in_strs_status d :
  in_strs (Dict.get_default "status" (JStr "") d)
          ["FILLED"; "NEW"; "PARTIALLY_FILLED"] = true
  <-> exists s, Dict.get "status" d = Some (JStr s)
                /\ (s = "NEW" \/ s = "PARTIALLY_FILLED" \/ s = "FILLED").
Proof.
  unfold Dict.get_default.
  destruct (Dict.get "status" d) as [v |]; simpl.
  - destruct v as [| b | z | f | s | l | d'];
      try (split; [discriminate | intros (s' & Hs & _); discriminate]).
    unfold str_in. simpl.
    destruct (String.eqb_spec s "FILLED") as [-> | Hf]; simpl; [split; eauto |].
    destruct (String.eqb_spec s "NEW") as [-> | Hn]; simpl; [split; eauto |].
    destruct (String.eqb_spec s "PARTIALLY_FILLED") as [-> | Hp]; simpl;
      [split; eauto |].
    split; [discriminate |].
    intros (s' & [= <-] & [-> | [-> | ->]]); congruence.
  - split; [discriminate | intros (s & Hs & _); discriminate].
Qed.

(** C7: when the client returns a response dictionary, [place_order]
    returns it.  A [status] that is one of the strings NEW,
    PARTIALLY_FILLED and FILLED is reported as success, with an INFO
    record; any other status, or none, is reported as unknown, with a
    WARNING record.  In neither case is anything raised or an ERROR
    logged. *)
Theorem place_order_classifies_status sym side ot q p sp w d w1 :
  Client.place_order E client sym side ot q p sp "GTC"
    (snd (Orders.announce sym side ot q p sp w))
  = (Ok (JDict d), w1) ->
  exists banner record,
    Orders.place_order E client sym side ot q p sp w
    = (Ok (JDict d),
       {| heap := heap w1;
          trace := trace w1 ++ [Print (Orders._format_order_response d);
                                Print banner; record] |})
    /\ (in_strs (Dict.get_default "status" (JStr "") d)
                ["FILLED"; "NEW"; "PARTIALLY_FILLED"] = true
        <-> exists s, Dict.get "status" d = Some (JStr s)
                      /\ (s = "NEW" \/ s = "PARTIALLY_FILLED" \/ s = "FILLED"))
    /\ (in_strs (Dict.get_default "status" (JStr "") d)
                ["FILLED"; "NEW"; "PARTIALLY_FILLED"] = true ->
        record = Log INFO "Order placed successfully | orderId=%s status=%s"
                     [AJson (Orders.get_or_null "orderId" d);
                      AJson (Dict.get_default "status" (JStr "") d)] false)
    /\ (in_strs (Dict.get_default "status" (JStr "") d)
                ["FILLED"; "NEW"; "PARTIALLY_FILLED"] = false ->
        record = Log WARNING "Unexpected order status: %s | response: %s"
                     [AJson (Dict.get_default "status" (JStr "") d);
                      AJson (JDict d)] false)
    /\ is_log_at ERROR record = false.
Proof.
  intros Hclient. unfold Orders.place_order.
  rewrite (bind_ok _ _ _ _ _ (announce_run sym side ot q p sp w)).
  unfold bind at 1, catch. rewrite Hclient.
  unfold Orders.report, bind, print, log, emit, ret. simpl.
  pose proof (in_strs_status d) as Hiff.
  destruct (in_strs (Dict.get_default "status" (JStr "") d)
                    ["FILLED"; "NEW"; "PARTIALLY_FILLED"]);
    simpl; rewrite <- !app_assoc; simpl; eexists _, _;
    (split; [reflexivity |]);
    (split; [exact Hiff |]);
    repeat split; intros; try reflexivity; discriminate.
Qed.

(** C8: when the client raises an exception, [place_order] raises that
    same exception, after it has logged an ERROR record and printed a
    message.  It returns nothing in its place, and one HTTP call has been
    made in all: the request is not sent again. *)
Theorem place_order_propagates_transport_error sym side ot q p sp w exc w1 :
  Client.place_order E client sym side ot q p sp "GTC"
    (snd (Orders.announce sym side ot q p sp w))
  = (Raise exc, w1) ->
  exists record text,
    Orders.place_order E client sym side ot q p sp w
    = (Raise exc,
       {| heap := heap w1; trace := trace w1 ++ [record; Print text] |})
    /\ is_log_at ERROR record = true
    /\ count_sends (trace w1 ++ [record; Print text]) = S (count_sends (trace w)).
Proof.
  intros Hclient. unfold Orders.place_order.
  rewrite (bind_ok _ _ _ _ _ (announce_run sym side ot q p sp w)).
  destruct (on_error_run exc w1) as (record & text & Herr & Hlvl).
  exists record, text.
  split; [| split; [exact Hlvl |]].
  - unfold bind, catch. now rewrite Hclient, Herr.
  - pose proof (client_place_order_sends_once sym side ot q p sp "GTC"
                  (snd (Orders.announce sym side ot q p sp w))) as Hone.
    rewrite Hclient in Hone. simpl in Hone.
    change (trace w1 ++ [record; Print text])
      with (trace w1 ++ [record] ++ [Print text]).
    rewrite app_assoc, count_sends_snoc_print, count_sends_snoc.
    destruct record; try discriminate. simpl. rewrite Hone.
    rewrite <- app_assoc. simpl.
    change (trace w ++ [?a; ?b]) with (trace w ++ [a] ++ [b]).
    rewrite app_assoc, count_sends_snoc_log, count_sends_snoc_print. lia.
Qed.

End Place.

Lemma place_order_classifies_status_witness :
  exists w',
    @Orders.place_order AsciiRuntime.builtins
      (Sample.exchange (Responds (Sample.answer "" (Some Sample.filled))))
      Sample.client "BTCUSDT" "BUY" "MARKET" PyFloat.milli None None
      Sample.empty_world
    = (Ok Sample.filled, w').
Proof.
  destruct (@place_order_classifies_status AsciiRuntime.builtins
              (Sample.exchange (Responds (Sample.answer "" (Some Sample.filled))))
              Sample.client "BTCUSDT" "BUY" "MARKET" PyFloat.milli None None
              Sample.empty_world
              [("orderId", JInt 1); ("status", JStr "FILLED");
               ("symbol", JStr "BTCUSDT")]
              (snd (@Client.place_order AsciiRuntime.builtins
                      (Sample.exchange
                         (Responds (Sample.answer "" (Some Sample.filled))))
                      Sample.client "BTCUSDT" "BUY" "MARKET" PyFloat.milli
                      None None "GTC"
                      (snd (Orders.announce "BTCUSDT" "BUY" "MARKET"
                              PyFloat.milli None None Sample.empty_world)))))
    as (banner & record & Hrun & _).
  - vm_compute. reflexivity.
  - eexists. exact Hrun.
Defined.

Lemma place_order_propagates_transport_error_witness :
  exists w',
    @Orders.place_order AsciiRuntime.builtins (Sample.exchange RaisesTimeout)
      Sample.client "BTCUSDT" "BUY" "MARKET" PyFloat.milli None None
      Sample.empty_world
    = (Raise (TimeoutError
                "Request to https://testnet.binancefuture.com/fapi/v1/order timed out."),
       w')
    /\ count_sends (trace w') = 1%nat.
Proof.
  destruct (@place_order_propagates_transport_error AsciiRuntime.builtins
              (Sample.exchange RaisesTimeout)
              Sample.client "BTCUSDT" "BUY" "MARKET" PyFloat.milli None None
              Sample.empty_world
              (TimeoutError
                 "Request to https://testnet.binancefuture.com/fapi/v1/order timed out.")
              (snd (@Client.place_order AsciiRuntime.builtins
                      (Sample.exchange RaisesTimeout)
                      Sample.client "BTCUSDT" "BUY" "MARKET" PyFloat.milli
                      None None "GTC"
                      (snd (Orders.announce "BTCUSDT" "BUY" "MARKET"
                              PyFloat.milli None None Sample.empty_world)))))
    as (record & text & Hrun & _ & Hcount).
  - vm_compute. reflexivity.
  - eexists. split; [exact Hrun | exact Hcount].
Defined.

End OrderFacts.

(* ===================================================================== *)
(** * Scenarios                                                           *)
(* ===================================================================== *)

Module Scenarios.

Import Py.

Example hmac_sha256_test_vector :
  Sha256.hex (Sha256.hmac_sha256 (Encoding.utf8 "key")
                (Encoding.utf8 "The quick brown fox jumps over the lazy dog"))
  = "f7bc83f430538424b13298e6aa6fb143ef4d59a14946175997479dbc2d1a3cd8".
Proof. vm_compute. reflexivity. Qed.

Example urlencode_escapes :
  @urlencode AsciiRuntime.builtins
    [("symbol", PStr ("BTC USDT/" ++ String (ascii_of_nat 233) "~_.-"));
     ("q", PFloat PyFloat.milli); ("p", PNone); ("t", PInt 1499827319559);
     ("", PStr "")]
  = "symbol=BTC+USDT%2F%C3%A9~_.-&q=0.001&p=None&t=1499827319559&=".
Proof. vm_compute. reflexivity. Qed.

Example limit_price_rules :
  Validators.validate_price Validators.RNone "LIMIT"
  = Raise (Validators.PriceRequired "LIMIT")
  /\ Validators.validate_price (Validators.RStr "0") "LIMIT"
     = Raise (Validators.PriceNotPositive (S754_zero false))
  /\ Validators.validate_price (Validators.RStr "-5") "MARKET" = Ok None
  /\ Validators.validate_price (Validators.RStr "100000") "LIMIT"
     = Ok (Some (S754_finite false 6871947673600000 (-36))).
Proof. repeat split; vm_compute; reflexivity. Qed.

(** A market order that the exchange fills: one signed request is sent and
    the response comes back. *)
Example market_order_filled :
  option_map fst
    (Sample.run_order (Responds (Sample.answer "" (Some Sample.filled)))
                      Sample.market_args)
  = Some (Ok Sample.filled)
  /\ Sample.sent_params (Responds (Sample.answer "" (Some Sample.filled)))
                        Sample.market_args
     = [[("symbol", PStr "BTCUSDT"); ("side", PStr "BUY"); ("type", PStr "MARKET");
         ("quantity", PFloat PyFloat.milli); ("timestamp", PInt 1499827319559);
         ("signature",
          PStr "d83808b20da0128fbe44800b8d11581b8307dc15477cc3d1d7b142fa1c0c5be5")]].
Proof. split; vm_compute; reflexivity. Qed.

Example limit_order_request :
  Sample.sent_params RaisesTimeout Sample.limit_args
  = [[("symbol", PStr "BTCUSDT"); ("side", PStr "SELL"); ("type", PStr "LIMIT");
      ("quantity", PFloat PyFloat.milli);
      ("price", PFloat (S754_finite false 6871947673600000 (-36)));
      ("timeInForce", PStr "GTC"); ("timestamp", PInt 1499827319559);
      ("signature",
       PStr "87dde3ac65c1bbe20f60f75b75247f33b604976fb60f490b9da2e6336d040162")]].
Proof. vm_compute. reflexivity. Qed.

Example stop_market_order_request :
  Sample.sent_params RaisesTimeout Sample.stop_market_args
  = [[("symbol", PStr "BTCUSDT"); ("side", PStr "BUY");
      ("type", PStr "STOP_MARKET"); ("quantity", PFloat PyFloat.milli);
      ("stopPrice", PFloat (S754_finite false 6528350289920000 (-36)));
      ("timestamp", PInt 1499827319559);
      ("signature",
       PStr "f9abf2d039544f6d3a77d9a1c229a20626f2b817891da9e5f1c3350e0310c571")]].
Proof. vm_compute. reflexivity. Qed.

(** The exchange rejects the order: the error comes out as it is. *)
Example insufficient_balance_propagates :
  option_map fst
    (Sample.run_order
       (Responds (Sample.answer "" (Some Sample.insufficient_balance)))
       Sample.market_args)
  = Some (Raise (BinanceAPIError (JInt (-2010)) (JStr "Insufficient balance"))).
Proof. vm_compute. reflexivity. Qed.

End Scenarios.

(* ===================================================================== *)
(** * Further properties of the validators                                *)
(* ===================================================================== *)

Module ValidatorExtras.

Import PyFloat Validators.

(** A float for which [x <= 0] is false is a NaN or greater than zero. *)
Lemma not_leb_zero x :
  leb x (of_Z 0) = false -> x = S754_nan \/ ltb (of_Z 0) x = true.
Proof.
  destruct x as [s | s | | s m e]; try destruct s; simpl;
    first [discriminate | now left | now right].
Qed.

(** [validate_quantity] never returns zero or a negative number: what it
    returns is greater than zero (possibly the infinity) or a NaN. *)
Theorem validated_quantity_is_positive_or_nan quantity qty :
  validate_quantity quantity = Ok qty ->
  qty = S754_nan \/ ltb (of_Z 0) qty = true.
Proof.
  intros Hq. apply ValidatorFacts.validate_quantity_ok_iff in Hq.
  apply not_leb_zero, Hq.
Qed.

Lemma validated_quantity_is_positive_or_nan_witness :
  validate_quantity (RStr "0.001") = Ok milli
  /\ (milli = S754_nan \/ ltb (of_Z 0) milli = true).
Proof.
  split; [vm_compute; reflexivity |].
  apply (validated_quantity_is_positive_or_nan (RStr "0.001")).
  vm_compute. reflexivity.
Defined.

Lemma validate_price_value raw ot p :
  validate_price raw ot = Ok (Some p) ->
  py_float raw = Some p /\ leb p (of_Z 0) = false.
Proof.
  unfold validate_price.
  destruct (str_in ot ["LIMIT"; "STOP_MARKET"]); [| discriminate].
  destruct raw; [discriminate | |];
    (destruct (py_float _) as [x |] eqn:Hx; [| discriminate]);
    (destruct (leb x (of_Z 0)) eqn:Hle; [discriminate |]);
    intros [= <-]; auto.
Qed.

Lemma validate_stop_price_value raw ot sp :
  validate_stop_price raw ot = Ok (Some sp) ->
  py_float raw = Some sp /\ leb sp (of_Z 0) = false.
Proof.
  unfold validate_stop_price.
  destruct (String.eqb ot "STOP_MARKET"); [| discriminate].
  destruct raw; [discriminate | |];
    (destruct (py_float _) as [x |] eqn:Hx; [| discriminate]);
    (destruct (leb x (of_Z 0)) eqn:Hle; [discriminate |]);
    intros [= <-]; auto.
Qed.

Section Requests.

Context `{Builtins}.

Lemma validate_symbol_inv raw sy :
  validate_symbol raw = Ok sy ->
  sy = str_upper (str_strip raw) /\ str_isalnum sy = true.
Proof.
  unfold validate_symbol.
  destruct (str_isalnum (str_upper (str_strip raw))) eqn:Ha; simpl;
    [| discriminate].
  intros [= <-]. auto.
Qed.

Lemma validate_side_valid raw si :
  validate_side raw = Ok si -> si = "BUY" \/ si = "SELL".
Proof.
  unfold validate_side, str_in, VALID_SIDES. simpl.
  destruct (String.eqb_spec (str_upper (str_strip raw)) "BUY") as [-> |];
    [intros [= <-]; auto |].
  destruct (String.eqb_spec (str_upper (str_strip raw)) "SELL") as [-> |];
    [intros [= <-]; auto |].
  discriminate.
Qed.

(** The request [main] forms is well formed: the symbol is the trimmed,
    upper-cased argument and is alphanumeric, the side is BUY or SELL, the
    type is one of the three order types, the quantity is not [<= 0], a
    price is present exactly for LIMIT and STOP_MARKET and a stop price
    exactly for STOP_MARKET, and neither is [<= 0]. *)
Theorem validated_request_is_well_formed a req :
  Cli.validate_args a = Ok req ->
  Cli.symbol req = str_upper (str_strip (Cli.arg_symbol a))
  /\ str_isalnum (Cli.symbol req) = true
  /\ (Cli.side req = "BUY" \/ Cli.side req = "SELL")
  /\ (Cli.order_type req = "MARKET" \/ Cli.order_type req = "LIMIT"
      \/ Cli.order_type req = "STOP_MARKET")
  /\ leb (Cli.quantity req) (of_Z 0) = false
  /\ (is_Some (Cli.price req)
      <-> Cli.order_type req = "LIMIT" \/ Cli.order_type req = "STOP_MARKET")
  /\ (is_Some (Cli.stop_price req) <-> Cli.order_type req = "STOP_MARKET")
  /\ (forall p, Cli.price req = Some p -> leb p (of_Z 0) = false)
  /\ (forall sp, Cli.stop_price req = Some sp -> leb sp (of_Z 0) = false).
Proof.
  intros Hreq.
  destruct (OrderFacts.validate_args_inv a req Hreq)
    as (Hsy & Hsi & Hot & Hq & Hp & Hsp).
  apply validate_symbol_inv in Hsy. destruct Hsy as [Hsy Halnum].
  split; [exact Hsy |]. split; [exact Halnum |].
  split; [eapply validate_side_valid; eassumption |].
  split; [eapply OrderFacts.validate_order_type_valid; eassumption |].
  split; [apply ValidatorFacts.validate_quantity_ok_iff in Hq; apply Hq |].
  split; [eapply OrderFacts.validate_price_present; eassumption |].
  split; [eapply OrderFacts.validate_stop_price_present; eassumption |].
  split.
  - intros p Hprice. rewrite Hprice in Hp.
    eapply validate_price_value. eassumption.
  - intros sp Hstop. rewrite Hstop in Hsp.
    eapply validate_stop_price_value. eassumption.
Qed.

(** A STOP_MARKET order without a price is refused, with the error that a
    price is required, whatever its stop price is. *)
Theorem stop_market_without_price_is_refused a sy si q :
  validate_symbol (Cli.arg_symbol a) = Ok sy ->
  validate_side (Cli.arg_side a) = Ok si ->
  validate_order_type (Cli.arg_order_type a) = Ok "STOP_MARKET" ->
  validate_quantity (RStr (Cli.arg_quantity a)) = Ok q ->
  Cli.arg_price a = None ->
  Cli.validate_args a = Raise (PriceRequired "STOP_MARKET").
Proof.
  intros Hsy Hsi Hot Hq Hp. unfold Cli.validate_args, Cli.bind.
  now rewrite Hsy, Hsi, Hot, Hq, Hp.
Qed.

(** Validation stops at the first argument that fails, in the order
    symbol, side, type, quantity, price, stop price: the error reported is
    the error of that argument, and every argument before it is valid. *)
Theorem validation_reports_the_first_failure a exc :
  Cli.validate_args a = Raise exc ->
  validate_symbol (Cli.arg_symbol a) = Raise exc
  \/ (is_ok (validate_symbol (Cli.arg_symbol a)) = true
      /\ (validate_side (Cli.arg_side a) = Raise exc
          \/ (is_ok (validate_side (Cli.arg_side a)) = true
              /\ (validate_order_type (Cli.arg_order_type a) = Raise exc
                  \/ exists ot,
                      validate_order_type (Cli.arg_order_type a) = Ok ot
                      /\ (validate_quantity (RStr (Cli.arg_quantity a)) = Raise exc
                          \/ (is_ok (validate_quantity (RStr (Cli.arg_quantity a)))
                              = true
                              /\ (validate_price (Cli.raw_of (Cli.arg_price a)) ot
                                  = Raise exc
                                  \/ (is_ok (validate_price
                                               (Cli.raw_of (Cli.arg_price a)) ot)
                                      = true
                                      /\ validate_stop_price
                                           (Cli.raw_of (Cli.arg_stop_price a)) ot
                                         = Raise exc)))))))).
Proof.
  unfold Cli.validate_args, Cli.bind.
  destruct (validate_symbol _) as [sy | e1]; [| intros [= <-]; now left].
  intros Hv. right. split; [reflexivity |]. revert Hv.
  destruct (validate_side _) as [si | e2]; [| intros [= <-]; now left].
  intros Hv. right. split; [reflexivity |]. revert Hv.
  destruct (validate_order_type _) as [ot | e3]; [| intros [= <-]; now left].
  intros Hv. right. exists ot. split; [reflexivity |]. revert Hv.
  destruct (validate_quantity _) as [q | e4]; [| intros [= <-]; now left].
  intros Hv. right. split; [reflexivity |]. revert Hv.
  destruct (validate_price _ ot) as [p | e5]; [| intros [= <-]; now left].
  intros Hv. right. split; [reflexivity |]. revert Hv.
  destruct (validate_stop_price _ ot) as [sp | e6]; [discriminate |].
  now intros [= <-].
Qed.

End Requests.

Lemma validated_request_is_well_formed_witness :
  exists req,
    @Cli.validate_args AsciiRuntime.builtins Sample.stop_market_args = Ok req
    /\ Cli.symbol req = "BTCUSDT"
    /\ leb (Cli.quantity req) (of_Z 0) = false.
Proof.
  eexists. split; [vm_compute; reflexivity |].
  destruct (@validated_request_is_well_formed AsciiRuntime.builtins
              Sample.stop_market_args _ eq_refl)
    as (Hsy & _ & _ & _ & Hq & _).
  split; [exact Hsy | exact Hq].
Defined.

Lemma stop_market_without_price_is_refused_witness :
  @Cli.validate_args AsciiRuntime.builtins MainSample.stop_market_no_price
  = Raise (PriceRequired "STOP_MARKET").
Proof.
  apply (@stop_market_without_price_is_refused AsciiRuntime.builtins
           MainSample.stop_market_no_price "BTCUSDT" "BUY" milli);
    vm_compute; reflexivity.
Defined.

Lemma validation_reports_the_first_failure_witness :
  @Cli.validate_args AsciiRuntime.builtins MainSample.bad_symbol_and_quantity
  = Raise (InvalidSymbol "BTC-USDT")
  /\ @validate_symbol AsciiRuntime.builtins "BTC-USDT"
     = Raise (InvalidSymbol "BTC-USDT").
Proof.
  split; [vm_compute; reflexivity |].
  destruct (@validation_reports_the_first_failure AsciiRuntime.builtins
              MainSample.bad_symbol_and_quantity (InvalidSymbol "BTC-USDT"))
    as [Hfirst | [Hok _]].
  - vm_compute. reflexivity.
  - exact Hfirst.
  - vm_compute in Hok. discriminate Hok.
Defined.

End ValidatorExtras.

(* ===================================================================== *)
(** * Further properties of the signer                                    *)
(* ===================================================================== *)

Module TextFacts.

Lemma append_cons c s t : (String c s ++ t)%string = String c (s ++ t)%string.
Proof. reflexivity. Qed.

Lemma append_nil_r s : (s ++ "")%string = s.
Proof.
  induction s as [| c s IH]; [reflexivity |]. now rewrite append_cons, IH.
Qed.

Lemma append_assoc s t u : ((s ++ t) ++ u)%string = (s ++ t ++ u)%string.
Proof.
  induction s as [| c s IH]; [reflexivity |]. now rewrite !append_cons, IH.
Qed.

Lemma length_append s t :
  String.length (s ++ t) = (String.length s + String.length t)%nat.
Proof.
  induction s as [| c s IH]; [reflexivity |].
  rewrite append_cons. simpl. now rewrite IH.
Qed.

Lemma list_ascii_of_append s t :
  list_ascii_of_string (s ++ t) = list_ascii_of_string s ++ list_ascii_of_string t.
Proof.
  induction s as [| c s IH]; [reflexivity |].
  rewrite append_cons. simpl. now rewrite IH.
Qed.

(** Joining with a separator, one more item at the end. *)
Lemma concat_snoc sep l x :
  l <> [] ->
  String.concat sep (l ++ [x]) = (String.concat sep l ++ sep ++ x)%string.
Proof.
  induction l as [| a l IH]; [congruence |]. intros _.
  destruct l as [| b l]; [reflexivity |].
  change (String.concat sep ((a :: b :: l) ++ [x]))
    with (a ++ sep ++ String.concat sep ((b :: l) ++ [x]))%string.
  rewrite IH by discriminate.
  change (String.concat sep (a :: b :: l))
    with (a ++ sep ++ String.concat sep (b :: l))%string.
  now rewrite !append_assoc.
Qed.

Lemma concat_empty_cons x l :
  String.concat "" (x :: l) = (x ++ String.concat "" l)%string.
Proof. destruct l; [symmetry; apply append_nil_r | reflexivity]. Qed.

End TextFacts.

Module HashFacts.

Import Sha256.

Lemma round_length s kw : length s = 8%nat -> length (round s kw) = 8%nat.
Proof.
  destruct s as [| a [| b [| c [| d [| e [| f [| g [| h [| i s]]]]]]]]];
    try discriminate; reflexivity.
Qed.

Lemma rounds_length kws s :
  length s = 8%nat -> length (fold_left round kws s) = 8%nat.
Proof.
  revert s. induction kws as [| kw kws IH]; intros s Hs; simpl; [exact Hs |].
  apply IH, round_length, Hs.
Qed.

Lemma add_state_length s s' :
  length (add_state s s') = Nat.min (length s) (length s').
Proof.
  revert s'. induction s as [| x s IH]; intros [| y s']; simpl; auto.
Qed.

Lemma compress_length s block :
  length s = 8%nat -> length (compress s block) = 8%nat.
Proof.
  intros Hs. unfold compress.
  rewrite add_state_length, rounds_length, Hs by exact Hs. reflexivity.
Qed.

Lemma blocks_length n l s :
  length s = 8%nat -> length (blocks n l s) = 8%nat.
Proof.
  revert l s. induction n as [| n IH]; intros l s Hs; simpl; [exact Hs |].
  apply IH, compress_length, Hs.
Qed.

Lemma be_bytes_length n x : length (be_bytes n x) = n.
Proof. induction n as [| n IH]; simpl; [reflexivity | now rewrite IH]. Qed.

Lemma words_bytes_length l :
  length (flat_map (be_bytes 4) l) = (4 * length l)%nat.
Proof.
  induction l as [| x l IH]; [reflexivity |].
  change (flat_map (be_bytes 4) (x :: l))
    with (be_bytes 4 x ++ flat_map (be_bytes 4) l).
  rewrite length_app, be_bytes_length, IH. simpl. lia.
Qed.

(** A SHA-256 digest has 32 bytes. *)
Lemma sha256_length msg : length (sha256 msg) = 32%nat.
Proof.
  unfold sha256. rewrite length_map, words_bytes_length, blocks_length;
    reflexivity.
Qed.

Lemma hmac_sha256_length key msg : length (hmac_sha256 key msg) = 32%nat.
Proof. unfold hmac_sha256. apply sha256_length. Qed.

Lemma hex_length b : String.length (hex b) = (2 * length b)%nat.
Proof. induction b as [| x b IH]; simpl; [reflexivity | rewrite IH; lia]. Qed.

Lemma hex_digits_of_byte x :
  Text.is_lower_hex (hex_digit (Z_of_byte x / 16)) = true
  /\ Text.is_lower_hex (hex_digit (Z_of_byte x mod 16)) = true.
Proof. destruct x; split; reflexivity. Qed.

Lemma hex_is_lower_hex b :
  Forall (fun c => Text.is_lower_hex c = true) (list_ascii_of_string (hex b)).
Proof.
  induction b as [| x b IH]; simpl; [constructor |].
  destruct (hex_digits_of_byte x) as [Hh Hl].
  constructor; [exact Hh |]. constructor; [exact Hl | exact IH].
Qed.

Lemma byte_range x : 0 <= Z_of_byte x < 256.
Proof.
  unfold Z_of_byte. pose proof (Byte.to_N_bounded x). lia.
Qed.

Lemma quote_plus_cons c s :
  (Z.of_nat (nat_of_ascii c) <? 128) = true ->
  Encoding.quote_plus (String c s)
  = (Encoding.quote_byte (byte_of_Z (Z.of_nat (nat_of_ascii c)))
       ++ Encoding.quote_plus s)%string.
Proof.
  intros Hc. unfold Encoding.quote_plus.
  change (Encoding.utf8 (String c s))
    with (if Z.of_nat (nat_of_ascii c) <? 128
          then byte_of_Z (Z.of_nat (nat_of_ascii c)) :: Encoding.utf8 s
          else byte_of_Z (0xC0 + Z.of_nat (nat_of_ascii c) / 64)
                 :: byte_of_Z (0x80 + Z.of_nat (nat_of_ascii c) mod 64)
                 :: Encoding.utf8 s).
  rewrite Hc. cbn [map]. apply TextFacts.concat_empty_cons.
Qed.

Lemma hex_digit_of_nat_needs_no_escape (m : nat) :
  (m < 16)%nat ->
  (Z.of_nat (nat_of_ascii (hex_digit (Z.of_nat m))) <? 128) = true
  /\ Encoding.quote_byte
       (byte_of_Z (Z.of_nat (nat_of_ascii (hex_digit (Z.of_nat m)))))
     = String (hex_digit (Z.of_nat m)) EmptyString.
Proof.
  intros Hm.
  do 16 (destruct m as [| m]; [split; reflexivity |]).
  lia.
Qed.

Lemma hex_digit_needs_no_escape n :
  0 <= n < 16 ->
  (Z.of_nat (nat_of_ascii (hex_digit n)) <? 128) = true
  /\ Encoding.quote_byte (byte_of_Z (Z.of_nat (nat_of_ascii (hex_digit n))))
     = String (hex_digit n) EmptyString.
Proof.
  intros Hn. rewrite <- (Z2Nat.id n) by lia.
  apply hex_digit_of_nat_needs_no_escape. lia.
Qed.

Lemma quote_plus_hex_digit n s :
  0 <= n < 16 ->
  Encoding.quote_plus (String (hex_digit n) s)
  = String (hex_digit n) (Encoding.quote_plus s).
Proof.
  intros Hn. destruct (hex_digit_needs_no_escape n Hn) as [Hc Hq].
  now rewrite quote_plus_cons, Hq by exact Hc.
Qed.

(** Hexadecimal text needs no escaping. *)
Lemma quote_plus_hex b : Encoding.quote_plus (hex b) = hex b.
Proof.
  induction b as [| x b IH]; [reflexivity |].
  change (hex (x :: b))
    with (String (hex_digit (Z_of_byte x / 16))
                 (String (hex_digit (Z_of_byte x mod 16)) (hex b))).
  pose proof (byte_range x) as Hx.
  rewrite !quote_plus_hex_digit, IH; [reflexivity | |].
  - apply Z.mod_pos_bound. lia.
  - split; [apply Z.div_pos; lia | apply Z.div_lt_upper_bound; lia].
Qed.

End HashFacts.

Module SignExtras.

Import Py Client RunFacts.

Lemma keys_set {V} k (v : V) d :
  Dict.keys (Dict.set k v d)
  = Dict.keys d ++ (if Dict.mem k d then [] else [k]).
Proof.
  unfold Dict.mem. induction d as [| [k' v'] d IH]; simpl; [reflexivity |].
  destruct (String.eqb k k'); simpl.
  - now rewrite app_nil_r.
  - now rewrite IH.
Qed.

Lemma mem_set_ne {V} k k' (v : V) d :
  k <> k' -> Dict.mem k' (Dict.set k v d) = Dict.mem k' d.
Proof. intros Hne. unfold Dict.mem. now rewrite DictFacts.get_set_ne. Qed.

Lemma length_set {V} k (v : V) d :
  length (Dict.set k v d) = (length d + if Dict.mem k d then 0 else 1)%nat.
Proof.
  unfold Dict.mem. induction d as [| [k' v'] d IH]; simpl; [reflexivity |].
  destruct (String.eqb k k'); simpl; [lia | now rewrite IH].
Qed.

Section Sign.

Context `{Builtins}.
Variable E : env.
Variable self : BinanceClient.

(** The signature [_sign] stores is a text of 64 characters, each a digit
    or a letter from a to f. *)
Theorem signature_is_64_hex_digits l d w :
  heap w !! l = Some d ->
  exists w' d' sig,
    _sign E self l w = (Ok l, w')
    /\ heap w' !! l = Some d'
    /\ Dict.get "signature" d' = Some (PStr sig)
    /\ String.length sig = 64%nat
    /\ Forall (fun c => Text.is_lower_hex c = true) (list_ascii_of_string sig).
Proof.
  intros Hl. do 3 eexists.
  split; [apply SignFacts.sign_run; eassumption |].
  split; [simpl; apply lookup_insert_eq |].
  split; [unfold signed_params; apply DictFacts.get_set_eq |].
  unfold signature_of. split.
  - now rewrite HashFacts.hex_length, HashFacts.hmac_sha256_length.
  - apply HashFacts.hex_is_lower_hex.
Qed.

(** After [_sign] the keys of the dictionary are the keys it had, in the
    same order, followed by [timestamp] and by [signature] where they were
    not among them: a dictionary that is signed again keeps its keys, and
    gains at most two entries in any case. *)
Theorem sign_keeps_key_order l d w :
  heap w !! l = Some d ->
  exists w' d',
    _sign E self l w = (Ok l, w')
    /\ heap w' !! l = Some d'
    /\ Dict.keys d'
       = Dict.keys d
           ++ (if Dict.mem "timestamp" d then [] else ["timestamp"])
           ++ (if Dict.mem "signature" d then [] else ["signature"])
    /\ (length d <= length d' <= length d + 2)%nat.
Proof.
  intros Hl. do 2 eexists.
  split; [apply SignFacts.sign_run; eassumption |].
  split; [simpl; apply lookup_insert_eq |].
  unfold signed_params. split.
  - rewrite !keys_set, mem_set_ne by discriminate. now rewrite <- app_assoc.
  - rewrite !length_set, mem_set_ne by discriminate.
    destruct (Dict.mem "timestamp" d), (Dict.mem "signature" d); lia.
Qed.

(** For a dictionary without a [signature] entry, the URL-encoded form of
    what [_sign] returns is the text that was signed, followed by
    [&signature=] and the digest: removing that last pair gives back the
    signed text. *)
Theorem signed_query_is_signed_text_then_signature l d w :
  heap w !! l = Some d ->
  Dict.get "signature" d = None ->
  exists w' d' signed_text sig,
    _sign E self l w = (Ok l, w')
    /\ heap w' !! l = Some d'
    /\ signed_text = urlencode (Dict.set "timestamp" (PInt (now_ms E)) d)
    /\ sig = Sha256.hex (Sha256.hmac_sha256
                           (Encoding.utf8 (api_secret self))
                           (Encoding.utf8 signed_text))
    /\ urlencode d' = (signed_text ++ "&signature=" ++ sig)%string.
Proof.
  intros Hl Hd. do 4 eexists.
  split; [apply SignFacts.sign_run; eassumption |].
  split; [simpl; apply lookup_insert_eq |].
  split; [reflexivity |]. split; [reflexivity |].
  unfold signed_params.
  rewrite DictFacts.set_absent
    by (rewrite DictFacts.get_set_ne by discriminate; exact Hd).
  unfold urlencode at 1. rewrite map_app. cbn [map fst snd str].
  rewrite TextFacts.concat_snoc.
  - unfold signature_of. rewrite HashFacts.quote_plus_hex. reflexivity.
  - intros Hnil. apply map_eq_nil in Hnil.
    assert (Hget : Dict.get "timestamp"
                     (Dict.set "timestamp" (PInt (now_ms E)) d) = None)
      by (rewrite Hnil; reflexivity).
    rewrite DictFacts.get_set_eq in Hget. discriminate.
Qed.

End Sign.

Lemma signature_is_64_hex_digits_witness :
  heap Sample.caller_world !! 1%positive = Some Sample.caller_params
  /\ exists w' d' sig,
      @_sign AsciiRuntime.builtins (Sample.exchange RaisesTimeout) Sample.client
             1%positive Sample.caller_world
      = (Ok 1%positive, w')
      /\ heap w' !! 1%positive = Some d'
      /\ Dict.get "signature" d' = Some (PStr sig)
      /\ String.length sig = 64%nat.
Proof.
  split; [reflexivity |].
  destruct (@signature_is_64_hex_digits AsciiRuntime.builtins
              (Sample.exchange RaisesTimeout) Sample.client
              1%positive Sample.caller_params Sample.caller_world)
    as (w' & d' & sig & Hrun & Hd & Hsig & Hlen & _).
  - reflexivity.
  - exists w', d', sig. auto.
Defined.

Lemma sign_keeps_key_order_witness :
  heap Sample.caller_world !! 1%positive = Some Sample.caller_params
  /\ exists w' d',
      @_sign AsciiRuntime.builtins (Sample.exchange RaisesTimeout) Sample.client
             1%positive Sample.caller_world
      = (Ok 1%positive, w')
      /\ heap w' !! 1%positive = Some d'
      /\ Dict.keys d'
         = ["symbol"; "side"; "type"; "timeInForce"; "quantity"; "price";
            "recvWindow"; "timestamp"; "signature"].
Proof.
  split; [reflexivity |].
  destruct (@sign_keeps_key_order AsciiRuntime.builtins
              (Sample.exchange RaisesTimeout) Sample.client
              1%positive Sample.caller_params Sample.caller_world)
    as (w' & d' & Hrun & Hd & Hkeys & _).
  - reflexivity.
  - exists w', d'. auto.
Defined.

Lemma signed_query_is_signed_text_then_signature_witness :
  heap Sample.caller_world !! 1%positive = Some Sample.caller_params
  /\ Dict.get "signature" Sample.caller_params = None
  /\ exists w' d',
      @_sign AsciiRuntime.builtins (Sample.exchange RaisesTimeout) Sample.client
             1%positive Sample.caller_world
      = (Ok 1%positive, w')
      /\ heap w' !! 1%positive = Some d'
      /\ @urlencode AsciiRuntime.builtins d'
         = "symbol=LTCBTC&side=BUY&type=LIMIT&timeInForce=GTC&quantity=1&price=0.1&recvWindow=5000&timestamp=1499827319559&signature=c8db56825ae71d6d79447849e617115f4a920fa2acdcab2b053c4b2838bd6b71".
Proof.
  split; [reflexivity |]. split; [reflexivity |].
  destruct (@signed_query_is_signed_text_then_signature AsciiRuntime.builtins
              (Sample.exchange RaisesTimeout) Sample.client
              1%positive Sample.caller_params Sample.caller_world)
    as (w' & d' & txt & sig & Hrun & Hd & Htxt & Hsig & Hq).
  - reflexivity.
  - reflexivity.
  - exists w', d'. split; [exact Hrun |]. split; [exact Hd |].
    rewrite Hq, Hsig, Htxt. vm_compute. reflexivity.
Defined.

End SignExtras.

(* ===================================================================== *)
(** * Further properties of the transport and of the API methods          *)
(* ===================================================================== *)

Module TransportExtras.

Import Py Client RunFacts.

Section Transport.

Context `{Builtins}.
Variable E : env.
Variable self : BinanceClient.

(** What follows the call of [session.request] leaves the heap alone and
    adds only log records to the trace. *)
Lemma handle_outcome_world method url o w :
  exists added,
    snd (handle_outcome method url o w)
    = {| heap := heap w; trace := trace w ++ added |}
    /\ count_sends added = 0%nat.
Proof.
  destruct o as [r | exc | | e]; simpl; unfold bind, log, emit, raise; simpl.
  - destruct (json_body r) as [data |]; simpl.
    + match goal with
      | |- context [check_body data ?w0] =>
          destruct (RequestFacts.check_body_cases data w0)
            as [(d & code & _ & _ & _ & ->) | (_ & ->)]
      end; simpl; eexists; split; reflexivity.
    + rewrite <- app_assoc. eexists; split; reflexivity.
  - eexists; split; reflexivity.
  - eexists; split; reflexivity.
  - exists []. now rewrite app_nil_r; destruct w.
Qed.

(** [_request] on a dictionary that exists and is not empty. *)
Lemma request_run_nonempty method endpoint l d signed w :
  heap w !! l = Some d -> d <> [] ->
  _request E self method endpoint (Some l) signed w
  = handle_outcome method (base_url self ++ endpoint)%string
      (send E (request_of self method (base_url self ++ endpoint)%string
                 (if signed then signed_params E self d else d)))
      {| heap := (if signed then <[l := signed_params E self d]> (heap w)
                  else heap w);
         trace := trace w
                    ++ Wire.sending self method (base_url self ++ endpoint)%string
                         (if signed then signed_params E self d else d) |}.
Proof.
  intros Hl Hd. unfold _request.
  assert (Hpe : params_or_empty (Some l) w = (Ok l, w)).
  { simpl. unfold bind. rewrite (read_run _ _ _ Hl).
    destruct d; [congruence | reflexivity]. }
  rewrite (bind_ok _ _ _ _ _ Hpe).
  destruct signed.
  - rewrite (bind_ok _ _ _ _ _ (SignFacts.sign_run E self l d w Hl)).
    erewrite bind_ok by (apply read_run; simpl; apply lookup_insert_eq).
    unfold bind, log, emit. simpl. now rewrite <- app_assoc.
  - rewrite (bind_ok _ _ _ _ _ (eq_refl : ret l w = (Ok l, w))).
    rewrite (bind_ok _ _ _ _ _ (read_run _ _ _ Hl)).
    unfold bind, log, emit. simpl. now rewrite <- app_assoc.
Qed.

(** [_request] without a dictionary, or with an empty one: a new
    dictionary is used. *)
Lemma request_run_fresh method endpoint params signed w :
  params = None \/ (exists l, params = Some l /\ heap w !! l = Some []) ->
  _request E self method endpoint params signed w
  = handle_outcome method (base_url self ++ endpoint)%string
      (send E (request_of self method (base_url self ++ endpoint)%string
                 (if signed then signed_params E self [] else [])))
      {| heap := <[fresh (dom (heap w)) :=
                     if signed then signed_params E self [] else []]> (heap w);
         trace := trace w
                    ++ Wire.sending self method (base_url self ++ endpoint)%string
                         (if signed then signed_params E self [] else []) |}.
Proof.
  intros Hp. unfold _request.
  assert (Hpe : params_or_empty params w
                = (Ok (fresh (dom (heap w))),
                   {| heap := <[fresh (dom (heap w)) := []]> (heap w);
                      trace := trace w |})).
  { destruct Hp as [-> | (l & -> & Hl)]; [reflexivity |].
    simpl. unfold bind. now rewrite (read_run _ _ _ Hl). }
  rewrite (bind_ok _ _ _ _ _ Hpe).
  destruct signed.
  - erewrite bind_ok
      by (apply SignFacts.sign_run; simpl; apply lookup_insert_eq).
    erewrite bind_ok by (apply read_run; simpl; apply lookup_insert_eq).
    unfold bind, log, emit. simpl.
    now rewrite insert_insert_eq, <- app_assoc.
  - erewrite bind_ok by reflexivity.
    erewrite bind_ok by (apply read_run; simpl; apply lookup_insert_eq).
    unfold bind, log, emit. simpl. now rewrite <- app_assoc.
Qed.

(** When the connection fails, [_request] raises [ConnectionError] with
    the cause in its message, after one call and one ERROR record that
    names the URL and the cause. *)
Theorem request_connection_failure_raises_connection_error
        method endpoint params signed w exc :
  valid_params params w ->
  (forall req, send E req = RaisesConnectionError exc) ->
  exists w' d,
    _request E self method endpoint params signed w
    = (Raise (ConnectionError ("Network error: " ++ exc)), w')
    /\ trace w'
       = trace w
           ++ Wire.sending self method (base_url self ++ endpoint)%string d
           ++ [Log ERROR "Network error connecting to %s: %s"
                   [AVal (PStr (base_url self ++ endpoint)%string);
                    AVal (PStr exc)] false].
Proof.
  intros Hv Hsend.
  destruct (RequestFacts.request_run E self method endpoint params signed w Hv)
    as (d & w1 & Hrun & Ht).
  rewrite Hrun, Hsend. simpl. unfold bind, log, emit, raise. simpl.
  eexists _, d. split; [reflexivity |]. simpl.
  now rewrite Ht, <- app_assoc.
Qed.


(** Any other exception of [session.request] leaves [_request] as it is,
    and nothing is logged about it: the trace ends with the call. *)
Theorem request_passes_other_exceptions_unlogged
        method endpoint params signed w e :
  valid_params params w ->
  (forall req, send E req = RaisesOther e) ->
  exists w' d,
    _request E self method endpoint params signed w = (Raise e, w')
    /\ trace w' = trace w ++ Wire.sending self method (base_url self ++ endpoint)%string d.
Proof.
  intros Hv Hsend.
  destruct (RequestFacts.request_run E self method endpoint params signed w Hv)
    as (d & w1 & Hrun & Ht).
  rewrite Hrun, Hsend. simpl. unfold raise.
  eexists _, d. split; [reflexivity | exact Ht].
Qed.

(** [_request] changes the dictionary it is given only when the request is
    signed and the dictionary is not empty; an empty dictionary stays
    empty even for a signed request, a new one is signed in its place. *)
Theorem request_changes_callers_mapping_only_when_signed_and_nonempty
        method endpoint l d signed w :
  heap w !! l = Some d ->
  exists out w',
    _request E self method endpoint (Some l) signed w = (out, w')
    /\ heap w' !! l
       = Some (match d with
               | [] => []
               | _ => if signed then signed_params E self d else d
               end).
Proof.
  intros Hl.
  destruct d as [| kv d].
  - rewrite request_run_fresh by (right; eauto).
    match goal with
    | |- context [handle_outcome ?m ?u ?o ?w0] =>
        destruct (handle_outcome_world m u o w0) as (added & Hw & _);
        destruct (handle_outcome m u o w0) as [out w'] eqn:Hrun
    end.
    simpl in Hw. subst w'. exists out. eexists. split; [reflexivity |]. simpl.
    rewrite lookup_insert_ne; [exact Hl |].
    intros Heq. pose proof (alloc_fresh w) as Hfresh.
    rewrite Heq in Hfresh.
    pose proof (eq_trans (eq_sym Hl) Hfresh) as Habs. discriminate Habs.
  - rewrite (request_run_nonempty _ _ _ _ _ _ Hl) by discriminate.
    match goal with
    | |- context [handle_outcome ?m ?u ?o ?w0] =>
        destruct (handle_outcome_world m u o w0) as (added & Hw & _);
        destruct (handle_outcome m u o w0) as [out w'] eqn:Hrun
    end.
    simpl in Hw. subst w'. exists out. eexists. split; [reflexivity |]. simpl.
    destruct signed; [apply lookup_insert_eq | exact Hl].
Qed.

(** [get_exchange_info] sends one GET to [/fapi/v1/exchangeInfo] with no
    parameter: no timestamp, no signature. *)
Theorem get_exchange_info_sends_unsigned_get w :
  exists out w' added,
    get_exchange_info E self w = (out, w')
    /\ trace w'
       = trace w
           ++ Wire.sending self "GET" (base_url self ++ "/fapi/v1/exchangeInfo")%string []
           ++ added
    /\ count_sends added = 0%nat.
Proof.
  unfold get_exchange_info. rewrite request_run_fresh by (left; reflexivity).
  match goal with
  | |- context [handle_outcome ?m ?u ?o ?w0] =>
      destruct (handle_outcome_world m u o w0) as (added & Hw & Hc);
      destruct (handle_outcome m u o w0) as [out w'] eqn:Hrun
  end.
  simpl in Hw. subst w'. exists out. eexists _, added.
  split; [reflexivity |]. simpl. split; [now rewrite <- app_assoc | exact Hc].
Qed.

(** [get_account] sends one GET to [/fapi/v2/account] whose parameters are
    the timestamp and the signature of the text [timestamp=...], in that
    order. *)
Theorem get_account_sends_signed_get w :
  exists out w' added,
    get_account E self w = (out, w')
    /\ trace w'
       = trace w
           ++ Wire.sending self "GET" (base_url self ++ "/fapi/v2/account")%string
                [("timestamp", PInt (now_ms E));
                 ("signature",
                  PStr (signature_of self [("timestamp", PInt (now_ms E))]))]
           ++ added
    /\ count_sends added = 0%nat.
Proof.
  unfold get_account. rewrite request_run_fresh by (left; reflexivity).
  match goal with
  | |- context [handle_outcome ?m ?u ?o ?w0] =>
      destruct (handle_outcome_world m u o w0) as (added & Hw & Hc);
      destruct (handle_outcome m u o w0) as [out w'] eqn:Hrun
  end.
  simpl in Hw. subst w'. exists out. eexists _, added.
  split; [reflexivity |]. simpl. split; [now rewrite <- app_assoc | exact Hc].
Qed.

Lemma client_place_order_trace sym side ot q p sp tif w :
  exists out w' added,
    place_order E self sym side ot q p sp tif w = (out, w')
    /\ trace w'
       = trace w
           ++ [Log INFO
                   "Placing %s %s order | symbol=%s qty=%s price=%s stopPrice=%s"
                   [AVal (PStr side); AVal (PStr ot); AVal (PStr sym);
                    AVal (PFloat q); AVal (of_opt_float p);
                    AVal (of_opt_float sp)] false]
           ++ Wire.sending self "POST" (base_url self ++ "/fapi/v1/order")%string
                (signed_params E self (order_params sym side ot q p sp tif))
           ++ added
    /\ count_sends added = 0%nat
    /\ (forall l d, heap w !! l = Some d -> heap w' !! l = Some d).
Proof.
  unfold place_order.
  rewrite (bind_ok _ _ _ _ _
             (OrderFacts.assemble_params_run sym side ot q p sp tif w)).
  unfold bind at 1. unfold log, emit at 1.
  rewrite (request_run_nonempty "POST" "/fapi/v1/order" (fresh (dom (heap w)))
             (order_params sym side ot q p sp tif) true)
    by (first [simpl; apply lookup_insert_eq | discriminate]).
  match goal with
  | |- context [handle_outcome ?m ?u ?o ?w0] =>
      destruct (handle_outcome_world m u o w0) as (added & Hw & Hc);
      destruct (handle_outcome m u o w0) as [out w'] eqn:Hrun
  end.
  simpl in Hw. subst w'. exists out. eexists _, added.
  split; [reflexivity |]. simpl.
  split; [now rewrite <- !app_assoc |].
  split; [exact Hc |].
  intros l d Hl. rewrite insert_insert_eq, lookup_insert_ne; [exact Hl |].
  intros Heq. pose proof (alloc_fresh w) as Hfresh. rewrite Heq in Hfresh.
  pose proof (eq_trans (eq_sym Hl) Hfresh) as Habs. discriminate Habs.
Qed.

(** [place_order] of the client logs the order and sends one POST to
    [/fapi/v1/order] whose parameters are the assembled order parameters
    with the timestamp and the signature; the dictionaries that existed
    before the call are left as they were. *)
Theorem client_place_order_sends_one_signed_post sym side ot q p sp tif w :
  exists out w' added,
    place_order E self sym side ot q p sp tif w = (out, w')
    /\ trace w'
       = trace w
           ++ [Log INFO
                   "Placing %s %s order | symbol=%s qty=%s price=%s stopPrice=%s"
                   [AVal (PStr side); AVal (PStr ot); AVal (PStr sym);
                    AVal (PFloat q); AVal (of_opt_float p);
                    AVal (of_opt_float sp)] false]
           ++ Wire.sending self "POST" (base_url self ++ "/fapi/v1/order")%string
                (signed_params E self (order_params sym side ot q p sp tif))
           ++ added
    /\ count_sends added = 0%nat
    /\ (forall l d, heap w !! l = Some d -> heap w' !! l = Some d).
Proof. apply client_place_order_trace. Qed.

End Transport.

Lemma request_connection_failure_raises_connection_error_witness :
  exists w',
    @_request AsciiRuntime.builtins
      (Sample.exchange (RaisesConnectionError "Name or service not known"))
      Sample.client "GET" "/fapi/v1/exchangeInfo" None false Sample.empty_world
    = (Raise (ConnectionError "Network error: Name or service not known"), w').
Proof.
  destruct (@request_connection_failure_raises_connection_error
              AsciiRuntime.builtins
              (Sample.exchange (RaisesConnectionError "Name or service not known"))
              Sample.client "GET" "/fapi/v1/exchangeInfo" None false
              Sample.empty_world "Name or service not known")
    as (w' & d & Hrun & _).
  - exact I.
  - intros req. reflexivity.
  - exists w'. exact Hrun.
Defined.


Lemma request_passes_other_exceptions_unlogged_witness :
  exists w',
    @_request AsciiRuntime.builtins
      (Sample.exchange (RaisesOther (OtherException "TooManyRedirects" "")))
      Sample.client "GET" "/fapi/v1/exchangeInfo" None false Sample.empty_world
    = (Raise (OtherException "TooManyRedirects" ""), w')
    /\ count_sends (trace w') = 1%nat.
Proof.
  destruct (@request_passes_other_exceptions_unlogged AsciiRuntime.builtins
              (Sample.exchange (RaisesOther (OtherException "TooManyRedirects" "")))
              Sample.client "GET" "/fapi/v1/exchangeInfo" None false
              Sample.empty_world (OtherException "TooManyRedirects" ""))
    as (w' & d & Hrun & Ht).
  - exact I.
  - intros req. reflexivity.
  - exists w'. split; [exact Hrun |]. rewrite Ht. reflexivity.
Defined.

Lemma request_changes_callers_mapping_only_when_signed_and_nonempty_witness :
  heap Sample.caller_world !! 1%positive = Some Sample.caller_params
  /\ exists out w',
      @_request AsciiRuntime.builtins (Sample.exchange RaisesTimeout)
        Sample.client "POST" "/fapi/v1/order" (Some 1%positive) false
        Sample.caller_world
      = (out, w')
      /\ heap w' !! 1%positive = Some Sample.caller_params.
Proof.
  split; [reflexivity |].
  destruct (@request_changes_callers_mapping_only_when_signed_and_nonempty
              AsciiRuntime.builtins (Sample.exchange RaisesTimeout)
              Sample.client "POST" "/fapi/v1/order" 1%positive
              Sample.caller_params false Sample.caller_world)
    as (out & w' & Hrun & Hl).
  - reflexivity.
  - exists out, w'. split; [exact Hrun | exact Hl].
Defined.

End TransportExtras.

Module InitExtras.

Import Py Client.







(** The constructor fails exactly when the key or the secret is empty; it
    then raises [ValueError] and leaves no trace, not even a log record. *)
Theorem init_fails_iff_a_credential_is_empty k s u w :
  (k = "" \/ s = ""
   <-> exists e w', __init__ k s u w = (Raise e, w'))
  /\ (forall e w',
        __init__ k s u w = (Raise e, w') ->
        e = OtherException "ValueError" "API key and secret must not be empty."
        /\ w' = w).
Proof.
  unfold __init__.
  destruct k as [| ck k], s as [| cs s]; simpl;
    try (split;
         [split; [intros _; eexists _, _; reflexivity | intros _; auto]
         | intros e w' [= <- <-]; auto]).
  unfold Py.bind, log, emit, ret. simpl. split.
  - split; [intros [Hk | Hs]; discriminate | intros (e & w' & Hr); discriminate].
  - intros e w' Hr. discriminate.
Qed.



End InitExtras.

(* ===================================================================== *)
(** * Further properties of order placement and of [main]                 *)
(* ===================================================================== *)

Module OrderExtras.

Import Py RunFacts.

(** The summary of an order has a price line exactly when a price is
    given and a stop price line exactly when a stop price is given: an
    absent value is left out, not shown as [None]. *)
Theorem summary_shows_a_price_only_when_given sym side ot q p sp :
  (In (Lit "  Price      : ") (Orders._format_order_summary sym side ot q p sp)
   <-> p <> None)
  /\ (In (Lit "  Stop Price : ") (Orders._format_order_summary sym side ot q p sp)
      <-> sp <> None)
  /\ (forall v, In (Val (AVal v)) (Orders._format_order_summary sym side ot q p sp)
               -> v <> PNone).
Proof.
  destruct p as [p |], sp as [sp |]; simpl;
    (split; [| split]);
    try (split; [intros _; discriminate | intros _; tauto]);
    try (split; [intros Hin; exfalso | intros Hn; congruence]);
    try (intros v Hin);
    repeat (destruct Hin as [Hin | Hin]; [try discriminate Hin |]);
    try contradiction;
    try (injection Hin as <-; discriminate).
Qed.

Section Place.

Context `{Builtins}.
Variable E : env.
Variable client : Client.BinanceClient.

(** [place_order] is the call of the client, followed by the report of its
    response or by the handler of its exception. *)
Lemma place_order_unfold sym side ot q p sp w :
  Orders.place_order E client sym side ot q p sp w
  = match Client.place_order E client sym side ot q p sp "GTC"
            (snd (Orders.announce sym side ot q p sp w)) with
    | (Ok j, w1) => Orders.report j w1
    | (Raise e, w1) => Orders.on_error e w1
    end.
Proof.
  unfold Orders.place_order.
  rewrite (bind_ok _ _ _ _ _ (OrderFacts.announce_run sym side ot q p sp w)).
  unfold bind, catch.
  destruct (Client.place_order E client sym side ot q p sp "GTC" _)
    as [[j | e] w1]; [reflexivity |].
  destruct (OrderFacts.on_error_run e w1) as (record & text & -> & _).
  reflexivity.
Qed.

(** The report leaves the heap alone and performs no call. *)
Lemma report_world j w :
  exists added,
    snd (Orders.report j w) = {| heap := heap w; trace := trace w ++ added |}
    /\ count_sends added = 0%nat.
Proof.
  destruct j as [| b | z | f | s | l | d];
    try (exists []; simpl; rewrite app_nil_r; destruct w; split; reflexivity).
  unfold Orders.report, bind, print, log, emit, ret. simpl.
  destruct (in_strs _ _); simpl; rewrite <- !app_assoc; simpl;
    eexists; split; reflexivity.
Qed.

Lemma announce_sends_nothing sym side ot q p sp w :
  count_sends (trace (snd (Orders.announce sym side ot q p sp w)))
  = count_sends (trace w).
Proof.
  unfold Orders.announce, bind, print, log, emit. simpl.
  now rewrite OrderFacts.count_sends_snoc_log, OrderFacts.count_sends_snoc_print.
Qed.

(** [place_order] performs exactly one HTTP call, whatever comes back. *)
Lemma place_order_sends_once sym side ot q p sp w :
  count_sends (trace (snd (Orders.place_order E client sym side ot q p sp w)))
  = S (count_sends (trace w)).
Proof.
  rewrite place_order_unfold.
  pose proof (OrderFacts.client_place_order_sends_once E client sym side ot q p sp
                "GTC" (snd (Orders.announce sym side ot q p sp w))) as Hone.
  rewrite announce_sends_nothing in Hone.
  destruct (Client.place_order E client sym side ot q p sp "GTC" _)
    as [[j | e] w1]; cbn [snd] in Hone.
  - destruct (report_world j w1) as (added & -> & Hc). cbn [trace].
    rewrite OrderFacts.count_sends_app, Hc, Hone. lia.
  - destruct (OrderFacts.on_error_run e w1) as (record & text & -> & Hlvl).
    cbn [snd trace]. change (trace w1 ++ [record; Print text])
      with (trace w1 ++ [record] ++ [Print text]).
    rewrite app_assoc, OrderFacts.count_sends_snoc_print,
      OrderFacts.count_sends_snoc.
    destruct record; try discriminate. cbn [is_send]. rewrite Hone. lia.
Qed.

(** When the client returns a decoded body that is not a dictionary (a
    list, a text, a number, [null]), [place_order] raises [AttributeError]
    once the call is made: it returns nothing and adds nothing to the
    trace, neither console output nor a log record. *)
Theorem place_order_fails_on_a_response_that_is_not_a_dictionary
        sym side ot q p sp w j w1 :
  Client.place_order E client sym side ot q p sp "GTC"
    (snd (Orders.announce sym side ot q p sp w))
  = (Ok j, w1) ->
  (forall d, j <> JDict d) ->
  exists msg,
    Orders.place_order E client sym side ot q p sp w
    = (Raise (OtherException "AttributeError" msg), w1).
Proof.
  intros Hclient Hj. rewrite place_order_unfold, Hclient.
  destruct j as [| b | z | f | s | l | d];
    try (eexists; reflexivity).
  now destruct (Hj d).
Qed.

Lemma place_order_result sym side ot q p sp w r j :
  (forall req, send E req = Responds r) ->
  fst (Orders.place_order E client sym side ot q p sp w) = Ok j
  <-> exists d, j = JDict d /\ json_body r = Some (JDict d)
                /\ ~ error_body (JDict d).
Proof.
  intros Hsend. rewrite place_order_unfold.
  unfold Client.place_order.
  rewrite (bind_ok _ _ _ _ _
             (OrderFacts.assemble_params_run sym side ot q p sp "GTC"
                (snd (Orders.announce sym side ot q p sp w)))).
  unfold bind at 1. unfold log, emit at 1.
  match goal with
  | |- context [Client._request E client ?m ?ep ?ps true ?w0] =>
      destruct (RequestFacts.request_responds E client m ep ps true w0 r)
        as (w2 & ->); [simpl; rewrite lookup_insert_eq; eauto | exact Hsend |]
  end.
  destruct (json_body r) as [data |].
  - destruct (RequestFacts.check_body_cases data w2)
      as [(d & code & Hd & Hcode & Hne & ->) | (Hnot & ->)].
    + destruct (OrderFacts.on_error_run
                  (BinanceAPIError code
                     (Dict.get_default "msg" (JStr "Unknown error") d)) w2)
        as (record & text & -> & _). simpl.
      split; [discriminate |].
      intros (d' & -> & [= Hdata] & Hn). exfalso. apply Hn.
      exists d, code. subst data. auto.
    + destruct data as [| b | z | f | s | l | d]; simpl;
        try (split; [discriminate | intros (d' & _ & [= ?] & _); discriminate]).
      unfold bind, print, log, emit, ret. simpl.
      destruct (in_strs _ _); simpl.
      * split; [intros [= <-]; eauto | intros (d' & -> & [= <-] & _); reflexivity].
      * split; [intros [= <-]; eauto | intros (d' & -> & [= <-] & _); reflexivity].
  - unfold bind at 1. unfold log, emit at 1. unfold raise.
    match goal with
    | |- context [Orders.on_error ?e ?w0] =>
        destruct (OrderFacts.on_error_run e w0) as (record & text & -> & _)
    end. simpl.
    split; [discriminate | intros (d' & _ & [= ?] & _)].
Qed.

(** What the exchange answers decides the result of [place_order]: it
    returns exactly the decoded body when that body is a dictionary without
    an error code, and raises in every other case. *)
Theorem place_order_returns_iff_body_is_a_dictionary_without_error
        sym side ot q p sp w r j :
  (forall req, send E req = Responds r) ->
  fst (Orders.place_order E client sym side ot q p sp w) = Ok j
  <-> exists d, j = JDict d /\ json_body r = Some (JDict d)
                /\ ~ error_body (JDict d).
Proof. apply place_order_result. Qed.

(** When the exchange answers with an error body, [place_order] raises
    [BinanceAPIError] with the code and the message of the body, and the
    last two events are the ERROR record that carries them and the
    message on the console. *)
Theorem place_order_reports_the_exchange_error
        sym side ot q p sp w r d code :
  (forall req, send E req = Responds r) ->
  json_body r = Some (JDict d) ->
  Dict.get "code" d = Some code ->
  ne_int code 200 = true ->
  exists w' before text,
    Orders.place_order E client sym side ot q p sp w
    = (Raise (BinanceAPIError code
                (Dict.get_default "msg" (JStr "Unknown error") d)), w')
    /\ trace w'
       = before
           ++ [Log ERROR "Order failed — Binance API error %s: %s"
                   [AJson code;
                    AJson (Dict.get_default "msg" (JStr "Unknown error") d)]
                   false;
               Print text]
    /\ count_sends before = S (count_sends (trace w)).
Proof.
  intros Hsend Hjson Hcode Hne.
  pose proof (place_order_sends_once sym side ot q p sp w) as Hone.
  rewrite place_order_unfold in Hone |- *.
  unfold Client.place_order in Hone |- *.
  rewrite (bind_ok _ _ _ _ _
             (OrderFacts.assemble_params_run sym side ot q p sp "GTC"
                (snd (Orders.announce sym side ot q p sp w)))) in Hone |- *.
  unfold bind at 1 in Hone. unfold bind at 1.
  unfold log, emit at 1 in Hone. unfold log, emit at 1.
  match goal with
  | |- context [Client._request E client ?m ?ep ?ps true ?w0] =>
      destruct (RequestFacts.request_responds E client m ep ps true w0 r)
        as (w2 & Hreq); [simpl; rewrite lookup_insert_eq; eauto | exact Hsend |]
  end.
  rewrite Hreq, Hjson in Hone |- *.
  cbn [Client.check_body] in Hone |- *.
  rewrite Hcode, Hne in Hone |- *.
  unfold raise in Hone |- *. cbn [Orders.on_error] in Hone |- *.
  unfold bind, log, print, emit, raise in Hone |- *. simpl in Hone |- *.
  eexists _, (trace w2), _. split; [reflexivity |]. simpl.
  split; [now rewrite <- app_assoc |].
  rewrite <- app_assoc in Hone. simpl in Hone.
  change (trace w2 ++ [?a; ?b]) with (trace w2 ++ [a] ++ [b]) in Hone.
  rewrite app_assoc, OrderFacts.count_sends_snoc_print,
    OrderFacts.count_sends_snoc_log in Hone.
  exact Hone.
Qed.

(** The events of [place_order] up to the call: the summary, the two INFO
    records and the DEBUG record of the request. *)
Lemma place_order_trace sym side ot q p sp w :
  exists out w' added,
    Orders.place_order E client sym side ot q p sp w = (out, w')
    /\ trace w'
       = trace w
           ++ [Print (Orders._format_order_summary sym side ot q p sp);
               Log INFO
                   "Order request | symbol=%s side=%s type=%s qty=%s price=%s stopPrice=%s"
                   [AVal (PStr sym); AVal (PStr side); AVal (PStr ot);
                    AVal (PFloat q); AVal (of_opt_float p);
                    AVal (of_opt_float sp)] false;
               Log INFO
                   "Placing %s %s order | symbol=%s qty=%s price=%s stopPrice=%s"
                   [AVal (PStr side); AVal (PStr ot); AVal (PStr sym);
                    AVal (PFloat q); AVal (of_opt_float p);
                    AVal (of_opt_float sp)] false]
           ++ Wire.sending client "POST"
                (Client.base_url client ++ "/fapi/v1/order")%string
                (Client.signed_params E client
                   (Client.order_params sym side ot q p sp "GTC"))
           ++ added
    /\ count_sends added = 0%nat.
Proof.
  rewrite place_order_unfold.
  destruct (TransportExtras.client_place_order_trace E client sym side ot q p sp
              "GTC" (snd (Orders.announce sym side ot q p sp w)))
    as (out & w1 & added & Hrun & Ht & Hc & _).
  rewrite Hrun.
  assert (Hw1 : trace w1
                = trace w
                    ++ [Print (Orders._format_order_summary sym side ot q p sp);
                        Log INFO
                            "Order request | symbol=%s side=%s type=%s qty=%s price=%s stopPrice=%s"
                            [AVal (PStr sym); AVal (PStr side); AVal (PStr ot);
                             AVal (PFloat q); AVal (of_opt_float p);
                             AVal (of_opt_float sp)] false;
                        Log INFO
                            "Placing %s %s order | symbol=%s qty=%s price=%s stopPrice=%s"
                            [AVal (PStr side); AVal (PStr ot); AVal (PStr sym);
                             AVal (PFloat q); AVal (of_opt_float p);
                             AVal (of_opt_float sp)] false]
                    ++ Wire.sending client "POST"
                         (Client.base_url client ++ "/fapi/v1/order")%string
                         (Client.signed_params E client
                            (Client.order_params sym side ot q p sp "GTC"))
                    ++ added).
  { rewrite Ht. unfold Orders.announce, bind, print, log, emit. simpl.
    now rewrite <- !app_assoc. }
  destruct out as [j | e].
  - destruct (report_world j w1) as (added2 & Hw & Hc2).
    destruct (Orders.report j w1) as [out2 w2]. simpl in Hw. subst w2.
    exists out2. eexists _, (added ++ added2). split; [reflexivity |].
    simpl. split.
    + rewrite Hw1. now rewrite <- !app_assoc.
    + rewrite OrderFacts.count_sends_app. lia.
  - destruct (OrderFacts.on_error_run e w1) as (record & text & -> & Hlvl).
    eexists _, _, (added ++ [record; Print text]). split; [reflexivity |].
    simpl. split.
    + rewrite Hw1. now rewrite <- !app_assoc.
    + rewrite OrderFacts.count_sends_app, Hc.
      destruct record; try discriminate. reflexivity.
Qed.

(** [place_order] prints the summary of the order and logs it before it
    contacts the exchange, and then sends the one signed POST; every event
    after that call is console output or a log record. *)
Theorem order_is_announced_before_it_is_sent sym side ot q p sp w :
  exists out w' added,
    Orders.place_order E client sym side ot q p sp w = (out, w')
    /\ trace w'
       = trace w
           ++ [Print (Orders._format_order_summary sym side ot q p sp);
               Log INFO
                   "Order request | symbol=%s side=%s type=%s qty=%s price=%s stopPrice=%s"
                   [AVal (PStr sym); AVal (PStr side); AVal (PStr ot);
                    AVal (PFloat q); AVal (of_opt_float p);
                    AVal (of_opt_float sp)] false;
               Log INFO
                   "Placing %s %s order | symbol=%s qty=%s price=%s stopPrice=%s"
                   [AVal (PStr side); AVal (PStr ot); AVal (PStr sym);
                    AVal (PFloat q); AVal (of_opt_float p);
                    AVal (of_opt_float sp)] false]
           ++ Wire.sending client "POST"
                (Client.base_url client ++ "/fapi/v1/order")%string
                (Client.signed_params E client
                   (Client.order_params sym side ot q p sp "GTC"))
           ++ added
    /\ count_sends added = 0%nat.
Proof. apply place_order_trace. Qed.

End Place.

Lemma place_order_fails_on_a_response_that_is_not_a_dictionary_witness :
  exists msg w',
    @Orders.place_order AsciiRuntime.builtins
      (Sample.exchange (Responds (Sample.answer "[]" (Some (JList [])))))
      Sample.client "BTCUSDT" "BUY" "MARKET" PyFloat.milli None None
      Sample.empty_world
    = (Raise (OtherException "AttributeError" msg), w').
Proof.
  destruct (@place_order_fails_on_a_response_that_is_not_a_dictionary
              AsciiRuntime.builtins
              (Sample.exchange (Responds (Sample.answer "[]" (Some (JList [])))))
              Sample.client "BTCUSDT" "BUY" "MARKET" PyFloat.milli None None
              Sample.empty_world (JList [])
              (snd (@Client.place_order AsciiRuntime.builtins
                      (Sample.exchange
                         (Responds (Sample.answer "[]" (Some (JList [])))))
                      Sample.client "BTCUSDT" "BUY" "MARKET" PyFloat.milli
                      None None "GTC"
                      (snd (Orders.announce "BTCUSDT" "BUY" "MARKET"
                              PyFloat.milli None None Sample.empty_world)))))
    as (msg & Hrun).
  - vm_compute. reflexivity.
  - intros d. discriminate.
  - exists msg. eexists. exact Hrun.
Defined.

Lemma place_order_returns_iff_body_is_a_dictionary_without_error_witness :
  fst (@Orders.place_order AsciiRuntime.builtins
         (Sample.exchange (Responds (Sample.answer "" (Some Sample.filled))))
         Sample.client "BTCUSDT" "BUY" "MARKET" PyFloat.milli None None
         Sample.empty_world)
  = Ok Sample.filled.
Proof.
  apply (@place_order_returns_iff_body_is_a_dictionary_without_error
           AsciiRuntime.builtins
           (Sample.exchange (Responds (Sample.answer "" (Some Sample.filled))))
           Sample.client "BTCUSDT" "BUY" "MARKET" PyFloat.milli None None
           Sample.empty_world (Sample.answer "" (Some Sample.filled))).
  - intros req. reflexivity.
  - eexists. split; [reflexivity |]. split; [reflexivity |].
    intros (d & code & [= <-] & Hcode & _). discriminate Hcode.
Defined.

Lemma place_order_reports_the_exchange_error_witness :
  exists w',
    @Orders.place_order AsciiRuntime.builtins
      (Sample.exchange
         (Responds (Sample.answer "" (Some Sample.insufficient_balance))))
      Sample.client "BTCUSDT" "BUY" "MARKET" PyFloat.milli None None
      Sample.empty_world
    = (Raise (BinanceAPIError (JInt (-2010)) (JStr "Insufficient balance")), w').
Proof.
  destruct (@place_order_reports_the_exchange_error AsciiRuntime.builtins
              (Sample.exchange
                 (Responds (Sample.answer "" (Some Sample.insufficient_balance))))
              Sample.client "BTCUSDT" "BUY" "MARKET" PyFloat.milli None None
              Sample.empty_world
              (Sample.answer "" (Some Sample.insufficient_balance))
              [("code", JInt (-2010)); ("msg", JStr "Insufficient balance")]
              (JInt (-2010)))
    as (w' & before & text & Hrun & _).
  - intros req. reflexivity.
  - reflexivity.
  - reflexivity.
  - reflexivity.
  - exists w'. exact Hrun.
Defined.

End OrderExtras.

Module MainFacts.

Import Py RunFacts.

Section Program.

Context `{Builtins}.
Variable E : env.
Variable environ : Dict.t string.
Variable validation_message : Validators.ValidationError -> string.
Variable is_value_error : string -> bool.

Lemma is_empty_false s : s <> "" -> Client.is_empty s = false.
Proof. destruct s; [congruence | reflexivity]. Qed.

(** The client [main] builds from the credentials [k] and [s]. *)
Lemma init_run k s w :
  k <> "" -> s <> "" ->
  Client.__init__ k s Client.TESTNET_BASE_URL w
  = (Ok {| Client.api_key := k; Client.api_secret := s;
           Client.base_url := Client.TESTNET_BASE_URL;
           Client.session_headers :=
             [("X-MBX-APIKEY", k);
              ("Content-Type", "application/x-www-form-urlencoded")] |},
     {| heap := heap w;
        trace := trace w
                   ++ [Log DEBUG "BinanceClient initialised with base URL: %s"
                           [AVal (PStr Client.TESTNET_BASE_URL)] false] |}).
Proof.
  intros Hk Hs. unfold Client.__init__.
  rewrite (is_empty_false k Hk), (is_empty_false s Hs). reflexivity.
Qed.

(** [main] once the credentials are there and the arguments are valid. *)
Lemma main_valid args w k s req :
  Main.arg_or_env (Main.arg_api_key args) "BINANCE_API_KEY" environ = k ->
  Main.arg_or_env (Main.arg_api_secret args) "BINANCE_API_SECRET" environ = s ->
  k <> "" -> s <> "" ->
  Cli.validate_args (Main.order args) = Ok req ->
  Main.main E environ validation_message is_value_error args w
  = match Orders.place_order E
            {| Client.api_key := k; Client.api_secret := s;
               Client.base_url := Client.TESTNET_BASE_URL;
               Client.session_headers :=
                 [("X-MBX-APIKEY", k);
                  ("Content-Type", "application/x-www-form-urlencoded")] |}
            (Cli.symbol req) (Cli.side req) (Cli.order_type req)
            (Cli.quantity req) (Cli.price req) (Cli.stop_price req)
            {| heap := heap w;
               trace := trace w
                 ++ [Log DEBUG "BinanceClient initialised with base URL: %s"
                         [AVal (PStr Client.TESTNET_BASE_URL)] false] |} with
    | (Ok _, w') => (Main.Returns, w')
    | (Raise exc, w') =>
        if Main.exits_quietly is_value_error exc then (Main.Exits 1, w')
        else
          (Main.Exits 1,
           {| heap := heap w';
              trace := trace w'
                ++ [Log ERROR "Unhandled exception: %s" [AExn exc] true;
                    Print [Lit Orders.nl; Lit "❌ UNEXPECTED ERROR: ";
                           Val (AExn exc); Lit Orders.nl]] |})
    end.
Proof.
  intros Hk Hs Hkne Hsne Hreq. unfold Main.main.
  rewrite Hk, Hs, (is_empty_false k Hkne), (is_empty_false s Hsne), Hreq.
  cbn [orb]. rewrite (bind_ok _ _ _ _ _ (init_run k s w Hkne Hsne)).
  destruct (Orders.place_order _ _ _ _ _ _ _ _ _) as [[j | exc] w'];
    [reflexivity |].
  destruct (Main.exits_quietly is_value_error exc); [reflexivity |].
  unfold Main.after, bind, print, emit. simpl. now rewrite <- app_assoc.
Qed.

Lemma main_without_credentials_exits_with_status_2_aux args w :
  Main.arg_or_env (Main.arg_api_key args) "BINANCE_API_KEY" environ = ""
  \/ Main.arg_or_env (Main.arg_api_secret args) "BINANCE_API_SECRET" environ = "" ->
  Main.main E environ validation_message is_value_error args w
  = (Main.Exits 2, w).
Proof.
  intros [Hk | Hs]; unfold Main.main.
  - now rewrite Hk.
  - rewrite Hs. now rewrite orb_true_r.
Qed.

(** Without a key or without a secret, from the command line or from the
    environment, [main] exits with status 2 before it validates anything:
    no record is logged, [print] is not called and nothing is sent (the
    usage message of [parser.error] goes to the standard error stream). *)
Theorem main_without_credentials_exits_with_status_2 args w :
  Main.arg_or_env (Main.arg_api_key args) "BINANCE_API_KEY" environ = ""
  \/ Main.arg_or_env (Main.arg_api_secret args) "BINANCE_API_SECRET" environ = "" ->
  Main.main E environ validation_message is_value_error args w
  = (Main.Exits 2, w).
Proof. apply main_without_credentials_exits_with_status_2_aux. Qed.

(** When an argument is invalid, [main] exits with status 1 after one
    ERROR record and one message on the console: no client is created, no
    dictionary is allocated and no request is sent. *)
Theorem main_validation_failure_exits_with_status_1 args w exc :
  Main.arg_or_env (Main.arg_api_key args) "BINANCE_API_KEY" environ <> "" ->
  Main.arg_or_env (Main.arg_api_secret args) "BINANCE_API_SECRET" environ <> "" ->
  Cli.validate_args (Main.order args) = Raise exc ->
  exists text,
    Main.main E environ validation_message is_value_error args w
    = (Main.Exits 1,
       {| heap := heap w;
          trace := trace w
            ++ [Log ERROR "Input validation failed: %s"
                    [AExn (OtherException "ValidationError"
                             (validation_message exc))] false;
                Print text] |})
    /\ count_sends (trace w ++ [Log ERROR "Input validation failed: %s"
                                   [AExn (OtherException "ValidationError"
                                            (validation_message exc))] false;
                                Print text])
       = count_sends (trace w).
Proof.
  intros Hk Hs Hreq. unfold Main.main.
  rewrite (is_empty_false _ Hk), (is_empty_false _ Hs), Hreq. cbn [orb].
  unfold Main.after, bind, log, print, emit. simpl. rewrite <- app_assoc. simpl.
  eexists. split; [reflexivity |].
  change (trace w ++ [?a; ?b]) with (trace w ++ [a] ++ [b]).
  now rewrite app_assoc, OrderFacts.count_sends_snoc_print,
    OrderFacts.count_sends_snoc_log.
Qed.

(** [main] ends in one of three ways: it returns, or it exits with status
    1 or 2.  It sends at most one request, and exactly one when it
    returns: nothing is ever sent twice. *)
Theorem main_sends_at_most_one_request args w :
  (fst (Main.main E environ validation_message is_value_error args w)
   = Main.Returns
   \/ fst (Main.main E environ validation_message is_value_error args w)
      = Main.Exits 1
   \/ fst (Main.main E environ validation_message is_value_error args w)
      = Main.Exits 2)
  /\ (count_sends
        (trace (snd (Main.main E environ validation_message is_value_error
                       args w)))
      <= S (count_sends (trace w)))%nat
  /\ (fst (Main.main E environ validation_message is_value_error args w)
      = Main.Returns ->
      count_sends
        (trace (snd (Main.main E environ validation_message is_value_error
                       args w)))
      = S (count_sends (trace w))).
Proof.
  destruct (string_dec
              (Main.arg_or_env (Main.arg_api_key args) "BINANCE_API_KEY" environ)
              "") as [Hk | Hk].
  { rewrite main_without_credentials_exits_with_status_2_aux by auto.
    simpl. split; [auto |]. split; [lia | discriminate]. }
  destruct (string_dec
              (Main.arg_or_env (Main.arg_api_secret args) "BINANCE_API_SECRET"
                 environ) "") as [Hs | Hs].
  { rewrite main_without_credentials_exits_with_status_2_aux by auto.
    simpl. split; [auto |]. split; [lia | discriminate]. }
  destruct (Cli.validate_args (Main.order args)) as [req | exc] eqn:Hreq.
  - rewrite (main_valid args w _ _ req eq_refl eq_refl Hk Hs Hreq).
    match goal with
    | |- context [Orders.place_order E ?c ?a1 ?a2 ?a3 ?a4 ?a5 ?a6 ?w0] =>
        pose proof (OrderExtras.place_order_sends_once E c a1 a2 a3 a4 a5 a6 w0)
          as Hone;
        destruct (Orders.place_order E c a1 a2 a3 a4 a5 a6 w0) as [[j | e] w']
    end; cbn [snd trace] in Hone;
      rewrite OrderFacts.count_sends_snoc_log in Hone.
    + simpl. split; [auto |]. split; [lia | intros _; exact Hone].
    + destruct (Main.exits_quietly is_value_error e); simpl.
      * split; [auto |]. split; [lia | discriminate].
      * split; [auto |]. split; [| discriminate].
        change (trace w' ++ [?a; ?b]) with (trace w' ++ [a] ++ [b]).
        rewrite app_assoc, OrderFacts.count_sends_snoc_print,
          OrderFacts.count_sends_snoc_log. lia.
  - unfold Main.main.
    rewrite (is_empty_false _ Hk), (is_empty_false _ Hs), Hreq. cbn [orb].
    unfold Main.after, bind, log, print, emit. simpl.
    rewrite <- app_assoc. simpl.
    split; [auto |]. split; [| discriminate].
    change (trace w ++ [?a; ?b]) with (trace w ++ [a] ++ [b]).
    rewrite app_assoc, OrderFacts.count_sends_snoc_print,
      OrderFacts.count_sends_snoc_log. lia.
Qed.

(** With credentials and valid arguments, [main] returns exactly when the
    exchange answers with a JSON dictionary that has no error code; in
    every other case it exits with status 1. *)
Theorem main_returns_iff_the_exchange_accepts args w req r :
  Main.arg_or_env (Main.arg_api_key args) "BINANCE_API_KEY" environ <> "" ->
  Main.arg_or_env (Main.arg_api_secret args) "BINANCE_API_SECRET" environ <> "" ->
  Cli.validate_args (Main.order args) = Ok req ->
  (forall request, send E request = Responds r) ->
  (fst (Main.main E environ validation_message is_value_error args w)
   = Main.Returns
   <-> exists d, json_body r = Some (JDict d) /\ ~ error_body (JDict d))
  /\ (fst (Main.main E environ validation_message is_value_error args w)
      <> Main.Returns ->
      fst (Main.main E environ validation_message is_value_error args w)
      = Main.Exits 1).
Proof.
  intros Hk Hs Hreq Hsend.
  rewrite (main_valid args w _ _ req eq_refl eq_refl Hk Hs Hreq).
  match goal with
  | |- context [Orders.place_order E ?c ?a1 ?a2 ?a3 ?a4 ?a5 ?a6 ?w0] =>
      pose proof (fun j =>
                    OrderExtras.place_order_result E c a1 a2 a3 a4 a5 a6 w0 r j
                      Hsend) as Hres;
      destruct (Orders.place_order E c a1 a2 a3 a4 a5 a6 w0) as [[j | e] w']
  end; cbn [fst] in Hres.
  - simpl. split; [| congruence].
    split; [intros _ | reflexivity].
    destruct (proj1 (Hres j) eq_refl) as (d & _ & Hd & Hn). eauto.
  - assert (Hno : ~ exists d, json_body r = Some (JDict d)
                              /\ ~ error_body (JDict d)).
    { intros (d & Hd & Hn).
      assert (Habs : @Raise exn json e = Ok (JDict d))
        by (apply Hres; eauto).
      discriminate Habs. }
    destruct (Main.exits_quietly is_value_error e); simpl;
      (split; [split; [discriminate | intros Hex; contradiction] | reflexivity]).
Qed.


End Program.

Lemma main_without_credentials_exits_with_status_2_witness :
  @Main.main AsciiRuntime.builtins (Sample.exchange RaisesTimeout) []
    MainSample.message MainSample.is_value_error
    (MainSample.with_env Sample.market_args) Sample.empty_world
  = (Main.Exits 2, Sample.empty_world).
Proof.
  apply (@main_without_credentials_exits_with_status_2 AsciiRuntime.builtins).
  left. reflexivity.
Defined.

Lemma main_validation_failure_exits_with_status_1_witness :
  fst (MainSample.run RaisesTimeout
         (MainSample.with_env MainSample.stop_market_no_price))
  = Main.Exits 1.
Proof.
  destruct (@main_validation_failure_exits_with_status_1 AsciiRuntime.builtins
              (Sample.exchange RaisesTimeout) MainSample.environ
              MainSample.message MainSample.is_value_error
              (MainSample.with_env MainSample.stop_market_no_price)
              Sample.empty_world
              (Validators.PriceRequired "STOP_MARKET"))
    as (text & Hrun & _).
  - discriminate.
  - discriminate.
  - vm_compute. reflexivity.
  - unfold MainSample.run. rewrite Hrun. reflexivity.
Defined.

Lemma main_returns_iff_the_exchange_accepts_witness :
  fst (MainSample.run (Responds (Sample.answer "" (Some Sample.filled)))
         (MainSample.with_env Sample.market_args))
  = Main.Returns.
Proof.
  apply (@main_returns_iff_the_exchange_accepts AsciiRuntime.builtins
           (Sample.exchange (Responds (Sample.answer "" (Some Sample.filled))))
           MainSample.environ MainSample.message MainSample.is_value_error
           (MainSample.with_env Sample.market_args) Sample.empty_world
           {| Cli.symbol := "BTCUSDT"; Cli.side := "BUY";
              Cli.order_type := "MARKET"; Cli.quantity := PyFloat.milli;
              Cli.price := None; Cli.stop_price := None |}
           (Sample.answer "" (Some Sample.filled))).
  - discriminate.
  - discriminate.
  - vm_compute. reflexivity.
  - intros request. reflexivity.
  - eexists. split; [reflexivity |].
    intros (d & code & [= <-] & Hcode & _). discriminate Hcode.
Defined.


End MainFacts.
